(** * Bias-only trading desk: readers and synthesis

    A shallow embedding of the reader / synthesis pipeline of the trading
    desk (agents/*.py, run_all_agents.py, dashboard.py) together with the
    properties stated about it.

    Conventions of the embedding.
    - Python numbers (int and float alike) are exact rationals [Q]; the
      rounding error of binary floating point is outside the model, the
      decimal rounding done by [round(x, n)] is inside it.
    - Python dictionaries with string keys are [gmap string value].
    - Code that can raise returns a [result]: [Ok v] for a normal return and
      [Raise e] for an exception. *)

From Stdlib Require Import QArith Qround Qabs Qminmax Lqa.
From stdpp Require Import gmap strings list pretty sorting.

Set Warnings "-register-all".
Set Default Proof Using "Type".

(** ** Python values, exceptions *)

Inductive exn : Type :=
  | KeyError (k : string)
  | TypeError
  | IndexError
  | ZeroDivisionError.

Inductive result (A : Type) : Type :=
  | Ok (a : A)
  | Raise (e : exn).
Arguments Ok {A} a.
Arguments Raise {A} e.

#[global] Instance result_ret : MRet result := λ A a, Ok a.
#[global] Instance result_bind : MBind result := λ A B f m,
  match m with
  | Ok a => f a
  | Raise e => Raise e
  end.

Definition returns {A} (m : result A) : Prop := ∃ a, m = Ok a.
Definition raises {A} (m : result A) : Prop := ∃ e, m = Raise e.

Inductive value : Type :=
  | VNone
  | VBool (b : bool)
  | VNum (q : Q)
  | VStr (s : string)
  | VList (l : list value)
  | VDict (d : gmap string value).

(** [d[k]]: a missing key raises KeyError, subscripting a non-dictionary with
    a string raises TypeError. *)
Definition getitem (v : value) (k : string) : result value :=
  match v with
  | VDict d =>
      match d !! k with
      | Some x => Ok x
      | None => Raise (KeyError k)
      end
  | _ => Raise TypeError
  end.

(** [d[k1][k2]...], evaluated left to right. *)
Fixpoint getpath (v : value) (ks : list string) : result value :=
  match ks with
  | [] => Ok v
  | k :: ks' => x ← getitem v k; getpath x ks'
  end.

(** [v == "s"] for a string literal: false for every non-string. *)
Definition py_eq_str (v : value) (s : string) : bool :=
  match v with
  | VStr t => String.eqb t s
  | _ => false
  end.
Infix "==?" := py_eq_str (at level 70, no associativity).

(** [needle in hay] on strings. *)
Definition str_contains (needle hay : string) : bool :=
  match String.index 0 needle hay with
  | Some _ => true
  | None => false
  end.

(** A dictionary literal. *)
Definition mkdict (kvs : list (string * value)) : value :=
  VDict (list_to_map kvs).

(** ** Numbers *)

Definition Qlt_bool (x y : Q) : bool := negb (Qle_bool y x).

(** Round half to even, the rule of Python's [round]. *)
Definition round_half_even (q : Q) : Z :=
  let f := Qfloor q in
  let r := (q - inject_Z f)%Q in
  if Qlt_bool r (1 # 2) then f
  else if Qlt_bool (1 # 2) r then (f + 1)%Z
  else if Z.even f then f else (f + 1)%Z.

(** [round(q, n)] for [n >= 0] decimal places. *)
Definition py_round (q : Q) (n : nat) : Q :=
  (inject_Z (round_half_even (q * inject_Z (10 ^ Z.of_nat n))) / inject_Z (10 ^ Z.of_nat n))%Q.

(** [a / b]: raises on a zero divisor. *)
Definition py_div (a b : Q) : result Q :=
  if Qeq_bool b 0 then Raise ZeroDivisionError else Ok (a / b)%Q.

(** [sum(l)]. *)
Definition py_sum (l : list Q) : Q := foldl Qplus 0%Q l.

(** ** Settings (config/settings.py) *)

Module Settings.
Definition INSTRUMENT : string := "XAU/USD".
Definition PIP_SIZE : Q := 1 # 100.
Definition ACCOUNT_EQUITY : Q := 10000.
Definition RISK_PER_TRADE : Q := 1 # 100.
Definition MAX_DAILY_LOSS : Q := 3 # 100.
Definition MAX_CONCURRENT_POSITIONS : Z := 2.
Definition ASIA_SESSION_START : Z := 0.
Definition ASIA_SESSION_END : Z := 9.
Definition LONDON_SESSION_START : Z := 7.
Definition LONDON_SESSION_END : Z := 16.
Definition NEW_YORK_SESSION_START : Z := 13.
Definition NEW_YORK_SESSION_END : Z := 22.
Definition STRUCTURE_LOOKBACK_PERIODS : Z := 50.
Definition STRUCTURE_MIN_DISTANCE_PIPS : Q := 10.
Definition MOMENTUM_FAST_PERIOD : nat := 5.
Definition MOMENTUM_SLOW_PERIOD : nat := 20.
Definition MOMENTUM_ACCELERATION_THRESHOLD : Q := 1 # 2.
End Settings.

(** ** SessionClock (agents/session_clock.py) *)

Module SessionClock.
Import Settings.

Definition is_within_session (current_hour start_hour end_hour : Z) : bool :=
  if (start_hour <? end_hour)%Z then
    (* Normal session (doesn't cross midnight) *)
    (start_hour <=? current_hour)%Z && (current_hour <? end_hour)%Z
  else
    (* Session crosses midnight *)
    (start_hour <=? current_hour)%Z || (current_hour <? end_hour)%Z.

Definition minutes_until_session_end (current_hour current_minute end_hour : Z) : Z :=
  let current_total_minutes := (current_hour * 60 + current_minute)%Z in
  let end_total_minutes := (end_hour * 60)%Z in
  if (current_total_minutes <? end_total_minutes)%Z then
    (end_total_minutes - current_total_minutes)%Z
  else
    (* Session ends tomorrow *)
    ((24 * 60 - current_total_minutes) + end_total_minutes)%Z.

Definition minutes_since_session_start (current_hour current_minute start_hour : Z) : Z :=
  let current_total_minutes := (current_hour * 60 + current_minute)%Z in
  let start_total_minutes := (start_hour * 60)%Z in
  if (start_total_minutes <=? current_total_minutes)%Z then
    (current_total_minutes - start_total_minutes)%Z
  else
    (* Session started yesterday *)
    ((24 * 60 - start_total_minutes) + current_total_minutes)%Z.

Definition format_duration (minutes : Z) : string :=
  let hours := (minutes `div` 60)%Z in
  let mins := (minutes `mod` 60)%Z in
  if (0 <? hours)%Z then pretty hours +:+ "h " +:+ pretty mins +:+ "m"
  else pretty mins +:+ "m".

Record session_hours : Type := { start : Z; end_ : Z; name : string }.

(** The fields [__init__] sets. *)
Record t : Type := {
  agent_name : string;
  agent_version : string;
  instrument : string;
  sessions_ASIA : session_hours;
  sessions_LONDON : session_hours;
  sessions_NEW_YORK : session_hours
}.

Definition __init__ : t := {|
  agent_name := "SESSION_CLOCK";
  agent_version := "1.0";
  instrument := INSTRUMENT;
  sessions_ASIA := {| start := ASIA_SESSION_START; end_ := ASIA_SESSION_END; name := "ASIA" |};
  sessions_LONDON := {| start := LONDON_SESSION_START; end_ := LONDON_SESSION_END; name := "LONDON" |};
  sessions_NEW_YORK :=
    {| start := NEW_YORK_SESSION_START; end_ := NEW_YORK_SESSION_END; name := "NEW_YORK" |}
|}.

(** Priority: Overlap > London > NY > Asia > Off hours. *)
Definition _determine_active_session (asia london new_york : bool) : string :=
  if london && new_york then "OVERLAP_LONDON_NY"
  else if london then "LONDON"
  else if new_york then "NEW_YORK"
  else if asia then "ASIA"
  else "OFF_HOURS".

Definition _determine_boundary_flag (session : string) (age_minutes minutes_to_close : Z)
    (london_active new_york_active : bool) : string :=
  if london_active && new_york_active then "OVERLAP_ACTIVE"
  else if (age_minutes <=? 30)%Z && negb (String.eqb session "OFF_HOURS")
  then "SESSION_OPEN_30MIN"
  else if (minutes_to_close <=? 30)%Z && negb (String.eqb session "OFF_HOURS")
  then "SESSION_CLOSE_30MIN"
  else "NONE".

Definition _get_next_transition (current_hour current_minute : Z) (current_session : string)
  : value :=
  if String.eqb current_session "OFF_HOURS" then
    mkdict [("session", VStr "ASIA"); ("in", VStr "Soon")]
  else if String.eqb current_session "ASIA" then
    mkdict [("session", VStr "LONDON"); ("in", VStr "After Asia close")]
  else if String.eqb current_session "LONDON" then
    mkdict [("session", VStr "OVERLAP_LONDON_NY"); ("in", VStr "When NY opens")]
  else if String.eqb current_session "OVERLAP_LONDON_NY" then
    mkdict [("session", VStr "NEW_YORK"); ("in", VStr "After London close")]
  else if String.eqb current_session "NEW_YORK" then
    mkdict [("session", VStr "OFF_HOURS"); ("in", VStr "After NY close")]
  else mkdict [("session", VStr "UNKNOWN"); ("in", VStr "UNKNOWN")].

Definition _create_report (self : t) (active_session analysis_time : string)
    (current_hour current_minute session_age_minutes minutes_to_close : Z)
    (boundary_flag : string) (next_transition : value)
    (asia_active london_active new_york_active : bool) : value :=
  mkdict [
    ("agent", VStr (agent_name self));
    ("version", VStr (agent_version self));
    ("timestamp", VStr analysis_time);
    ("instrument", VStr (instrument self));
    ("status", VStr "TIME_CHECK_COMPLETE");
    ("output", mkdict [
       ("active_session", VStr active_session);
       ("session_age", VStr (format_duration session_age_minutes));
       ("time_to_close", VStr (format_duration minutes_to_close));
       ("boundary_flag", VStr boundary_flag);
       ("next_transition", next_transition)]);
    ("internals", mkdict [
       ("current_hour_utc", VNum (inject_Z current_hour));
       ("current_minute", VNum (inject_Z current_minute));
       ("asia_active", VBool asia_active);
       ("london_active", VBool london_active);
       ("new_york_active", VBool new_york_active);
       ("session_age_minutes", VNum (inject_Z session_age_minutes));
       ("minutes_to_close", VNum (inject_Z minutes_to_close))])
  ].

(** [check_session(timestamp)]: the clock reading is the input, as its
    ISO string [analysis_time], its hour and its minute. *)
Definition check_session (self : t) (analysis_time : string) (current_hour current_minute : Z)
  : value :=
  let asia_active :=
    is_within_session current_hour (start (sessions_ASIA self)) (end_ (sessions_ASIA self)) in
  let london_active :=
    is_within_session current_hour (start (sessions_LONDON self)) (end_ (sessions_LONDON self)) in
  let new_york_active :=
    is_within_session current_hour (start (sessions_NEW_YORK self))
      (end_ (sessions_NEW_YORK self)) in
  let active_session := _determine_active_session asia_active london_active new_york_active in
  let since s := minutes_since_session_start current_hour current_minute (start s) in
  let until s := minutes_until_session_end current_hour current_minute (end_ s) in
  let '(session_age_minutes, minutes_to_close) :=
    if String.eqb active_session "ASIA" then
      (since (sessions_ASIA self), until (sessions_ASIA self))
    else if String.eqb active_session "LONDON" then
      (since (sessions_LONDON self), until (sessions_LONDON self))
    else if String.eqb active_session "NEW_YORK" then
      (since (sessions_NEW_YORK self), until (sessions_NEW_YORK self))
    else if String.eqb active_session "OVERLAP_LONDON_NY" then
      (since (sessions_NEW_YORK self), until (sessions_LONDON self))
    else (0%Z, 0%Z) in
  let boundary_flag :=
    _determine_boundary_flag active_session session_age_minutes minutes_to_close
      london_active new_york_active in
  let next_transition := _get_next_transition current_hour current_minute active_session in
  _create_report self active_session analysis_time current_hour current_minute
    session_age_minutes minutes_to_close boundary_flag next_transition
    asia_active london_active new_york_active.

End SessionClock.

(** ** Candles and list helpers *)

(** A candle of the price series handed to the readers (oldest first). *)
Record candle : Type := {
  open : Q;
  high : Q;
  low : Q;
  close : Q;
  volume : Q;
  timestamp : string
}.

(** [l[-n:]]: the last [n] elements, the whole list for [n = 0]. *)
Definition py_suffix {A} (l : list A) (n : nat) : list A :=
  match n with
  | O => l
  | _ => drop (length l - n) l
  end.

(** [l[:-n]]: all but the last [n] elements, nothing for [n = 0]. *)
Definition py_drop_last {A} (l : list A) (n : nat) : list A :=
  match n with
  | O => []
  | _ => take (length l - n) l
  end.

(** [l[-1]]. *)
Definition py_last {A} (l : list A) : result A :=
  match last l with
  | Some x => Ok x
  | None => Raise IndexError
  end.

(** [l[0]]. *)
Definition py_first {A} (l : list A) : result A :=
  match l with
  | x :: _ => Ok x
  | [] => Raise IndexError
  end.

Definition Qofnat (n : nat) : Q := inject_Z (Z.of_nat n).

Open Scope Q_scope.

(** [int(q)]: truncation toward zero. *)
Definition py_int (q : Q) : Z :=
  if Qle_bool 0 q then Qfloor q else Qceiling q.

(** [max(a, b, c)]. *)
Definition max3 (a b c : Q) : Q := Qmax (Qmax a b) c.

(** True range of a candle given the previous one:
    max(high - low, |high - prev close|, |low - prev close|). *)
Definition true_range (prev cur : candle) : Q :=
  max3 (high cur - low cur) (Qabs (high cur - close prev)) (Qabs (low cur - close prev)).

(** The pairs [(candles[i-1], candles[i])] for [i] in [range(1, len(candles))]. *)
Definition consecutive {A} (l : list A) : list (A * A) := zip l (tail l).

(** ** RegimeClassifier (agents/regime_classifier.py) *)

Module RegimeClassifier.

Record t : Type := {
  agent_name : string;
  agent_version : string;
  instrument : string;
  lookback : nat;
  adx_threshold : Q
}.

Definition __init__ : t := {|
  agent_name := "REGIME_CLASSIFIER";
  agent_version := "2.0.0";
  instrument := "XAU/USD";
  lookback := 14;
  adx_threshold := 25
|}.

Definition plus_dm (prev cur : candle) : Q :=
  let up_move := high cur - high prev in
  let down_move := low prev - low cur in
  if Qlt_bool down_move up_move && Qlt_bool 0 up_move then up_move else 0.

Definition minus_dm (prev cur : candle) : Q :=
  let up_move := high cur - high prev in
  let down_move := low prev - low cur in
  if Qlt_bool up_move down_move && Qlt_bool 0 down_move then down_move else 0.

(** One Wilder step: [smoothed - (smoothed / period) + new]. *)
Definition wilder (smoothed : Q) (period : nat) (new : Q) : result Q :=
  d ← py_div smoothed (Qofnat period); Ok (smoothed - d + new).

(** The body of the smoothing loop, over the rows
    [(tr_list[i], plus_dm_list[i], minus_dm_list[i])] for [i >= period];
    [dx_list] collects the triples [(dx, plus_di, minus_di)]. *)
Fixpoint dx_loop (period : nat) (rows : list (Q * Q * Q))
    (smoothed_tr smoothed_plus_dm smoothed_minus_dm : Q) (dx_list : list (Q * Q * Q))
  : result (list (Q * Q * Q)) :=
  match rows with
  | [] => Ok dx_list
  | (tr, pdm, mdm) :: rows' =>
      smoothed_tr ← wilder smoothed_tr period tr;
      smoothed_plus_dm ← wilder smoothed_plus_dm period pdm;
      smoothed_minus_dm ← wilder smoothed_minus_dm period mdm;
      let '(plus_di, minus_di) :=
        if Qlt_bool 0 smoothed_tr
        then (100 * smoothed_plus_dm / smoothed_tr, 100 * smoothed_minus_dm / smoothed_tr)
        else (0, 0) in
      let di_sum := plus_di + minus_di in
      let dx :=
        if Qlt_bool 0 di_sum then 100 * Qabs (plus_di - minus_di) / di_sum else 0 in
      dx_loop period rows' smoothed_tr smoothed_plus_dm smoothed_minus_dm
        (dx_list ++ [(dx, plus_di, minus_di)])
  end.

(** The list of DX triples the smoothing loop of [calculate_adx] builds. *)
Definition dx_triples (candles : list candle) (period : nat) : result (list (Q * Q * Q)) :=
  let pairs := consecutive candles in
  let tr_list := (λ pc, true_range pc.1 pc.2) <$> pairs in
  let plus_dm_list := (λ pc, plus_dm pc.1 pc.2) <$> pairs in
  let minus_dm_list := (λ pc, minus_dm pc.1 pc.2) <$> pairs in
  let smoothed_tr := py_sum (take period tr_list) in
  let smoothed_plus_dm := py_sum (take period plus_dm_list) in
  let smoothed_minus_dm := py_sum (take period minus_dm_list) in
  dx_loop period
    (zip (zip (drop period tr_list) (drop period plus_dm_list)) (drop period minus_dm_list))
    smoothed_tr smoothed_plus_dm smoothed_minus_dm [].

(** Returns [(ADX, +DI, -DI)]. *)
Definition calculate_adx (candles : list candle) (period : nat) : result (Q * Q * Q) :=
  if (length candles <? period + 1)%nat then Ok (0, 0, 0)
  else if (length (consecutive candles) <? period)%nat then Ok (0, 0, 0)
  else
    dx_list ← dx_triples candles period;
    if (length dx_list <? period)%nat then
      match last dx_list with
      | Some d => Ok d
      | None => Ok (0, 0, 0)
      end
    else
      (* ADX is smoothed average of DX *)
      adx ← py_div (py_sum ((λ d, d.1.1) <$> py_suffix dx_list period)) (Qofnat period);
      d ← py_last dx_list;
      Ok (adx, d.1.2, d.2).

Definition classify (self : t) (candles : list candle) : result value :=
  if bool_decide (candles = []) || (length candles <? lookback self + 1)%nat then
    Ok (mkdict [
      ("status", VStr "ERROR");
      ("output", mkdict [
         ("regime", VStr "UNKNOWN");
         ("duration_candles", VNum 0);
         ("prior_regime", VStr "UNKNOWN");
         ("internals", mkdict [("adx", VNum 0); ("plus_di", VNum 0); ("minus_di", VNum 0)])])])
  else
    '(adx, plus_di, minus_di) ← calculate_adx candles (lookback self);
    let regime :=
      if Qlt_bool adx 20 then "RANGE"
      else if Qle_bool 20 adx && Qlt_bool adx 25 then
        if Qlt_bool minus_di plus_di then "TREND_UP"
        else if Qlt_bool plus_di minus_di then "TREND_DOWN"
        else "RANGE"
      else if Qle_bool 25 adx && Qlt_bool adx 50 then
        if Qlt_bool minus_di plus_di then "TREND_UP" else "TREND_DOWN"
      else
        if Qlt_bool (Qabs (plus_di - minus_di)) 10 then "CHAOS"
        else if Qlt_bool minus_di plus_di then "TREND_UP"
        else "TREND_DOWN" in
    let duration := if Qlt_bool 20 adx then Z.min (py_int (adx / 5)) 20 else 1%Z in
    Ok (mkdict [
      ("status", VStr "OK");
      ("output", mkdict [
         ("regime", VStr regime);
         ("duration_candles", VNum (inject_Z duration));
         ("prior_regime", VStr "RANGE");
         ("trend_strength",
            VStr (if Qle_bool 25 adx then "STRONG" else if Qle_bool 15 adx then "WEAK" else "NONE"));
         ("internals", mkdict [
            ("adx", VNum (py_round adx 2));
            ("plus_di", VNum (py_round plus_di 2));
            ("minus_di", VNum (py_round minus_di 2))])])]).

End RegimeClassifier.

(** ** VolatilityAssessor (agents/volatility_assessor.py) *)

Module VolatilityAssessor.

Record t : Type := {
  agent_name : string;
  agent_version : string;
  instrument : string;
  pip_size : Q;
  low_threshold : Q;
  normal_threshold : Q;
  elevated_threshold : Q;
  spread_acceptable : Q;
  spread_wide : Q
}.

Definition __init__ : t := {|
  agent_name := "VOLATILITY_ASSESSOR";
  agent_version := "2.0.0";
  instrument := "XAU/USD";
  pip_size := 1 # 100;
  low_threshold := 100;
  normal_threshold := 300;
  elevated_threshold := 500;
  spread_acceptable := 50 # 100;
  spread_wide := 1
|}.

(** The Wilder loop [atr = ((atr * (period - 1)) + tr_list[i]) / period]. *)
Fixpoint atr_loop (period : nat) (trs : list Q) (atr : Q) : result Q :=
  match trs with
  | [] => Ok atr
  | tr :: trs' =>
      atr ← py_div (atr * (Qofnat period - 1) + tr) (Qofnat period);
      atr_loop period trs' atr
  end.

Definition calculate_atr (candles : list candle) (period : nat) : result Q :=
  if (length candles <? period + 1)%nat then Ok 0
  else
    let tr_list := (λ pc, true_range pc.1 pc.2) <$> consecutive candles in
    if (length tr_list <? period)%nat then
      match tr_list with
      | [] => Ok 0
      | _ => py_div (py_sum tr_list) (Qofnat (length tr_list))
      end
    else
      (* Wilder's smoothed ATR *)
      atr ← py_div (py_sum (take period tr_list)) (Qofnat period);
      atr_loop period (drop period tr_list) atr.

Definition calculate_baseline_atr (candles : list candle) (period lookback : nat) : result Q :=
  if (length candles <? lookback)%nat then calculate_atr candles period
  else
    (* Use older candles for baseline *)
    let baseline_candles :=
      if (lookback * 2 <? length candles)%nat
      then py_drop_last candles lookback else take lookback candles in
    calculate_atr baseline_candles period.

(** [spread] is [None] when the caller gives none. *)
Definition assess (self : t) (candles : list candle) (spread : option Q) : result value :=
  if bool_decide (candles = []) || (length candles <? 2)%nat then
    Ok (mkdict [
      ("status", VStr "ERROR");
      ("output", mkdict [
         ("volatility_state", VStr "UNKNOWN");
         ("atr_current_pips", VNum 0);
         ("atr_baseline_pips", VNum 0);
         ("spread_pips", VNum 0);
         ("spread_status", VStr "UNKNOWN")])])
  else
    atr_current ← calculate_atr candles 14;
    atr_current_pips ← py_div atr_current (pip_size self);
    atr_baseline ← calculate_baseline_atr candles 14 50;
    atr_baseline_pips ← py_div atr_baseline (pip_size self);
    let volatility_state :=
      if Qlt_bool atr_current_pips (low_threshold self) then "LOW"
      else if Qlt_bool atr_current_pips (normal_threshold self) then "NORMAL"
      else if Qlt_bool atr_current_pips (elevated_threshold self) then "ELEVATED"
      else "EXTREME" in
    (* Also check relative to baseline *)
    let volatility_state :=
      if Qlt_bool 0 atr_baseline then
        let ratio := atr_current / atr_baseline in
        let volatility_state :=
          if Qlt_bool 2 ratio && negb (String.eqb volatility_state "EXTREME")
          then "ELEVATED" else volatility_state in
        if Qlt_bool 3 ratio then "EXTREME" else volatility_state
      else volatility_state in
    let spread_pips := match spread with Some s => s | None => 30 # 100 end in
    let spread_status :=
      if Qle_bool spread_pips (spread_acceptable self) then "ACCEPTABLE"
      else if Qle_bool spread_pips (spread_wide self) then "WIDE"
      else "EXTREME" in
    Ok (mkdict [
      ("status", VStr "OK");
      ("output", mkdict [
         ("volatility_state", VStr volatility_state);
         ("atr_current_pips", VNum (py_round atr_current_pips 2));
         ("atr_baseline_pips", VNum (py_round atr_baseline_pips 2));
         ("atr_ratio",
            VNum (if Qlt_bool 0 atr_baseline
                  then py_round (atr_current / atr_baseline) 2 else 1));
         ("spread_pips", VNum (py_round spread_pips 2));
         ("spread_status", VStr spread_status);
         ("internals", mkdict [
            ("atr_raw", VNum (py_round atr_current 4));
            ("atr_baseline_raw", VNum (py_round atr_baseline 4));
            ("period", VNum 14)])])]).

End VolatilityAssessor.

(** ** MomentumReader (agents/momentum_reader.py) *)

Module MomentumReader.

Definition calculate_rate_of_change (prices : list Q) (period : nat) : result Q :=
  if (length prices <=? period)%nat then Ok 0
  else
    current_price ← py_last prices;
    past_price ← py_first (py_suffix prices (period + 1));
    if Qeq_bool past_price 0 then Ok 0
    else Ok (py_round (((current_price - past_price) / past_price) * 100) 4).

Definition calculate_velocity (prices : list Q) (period : nat) : result Q :=
  if (length prices <? period)%nat then Ok 0
  else
    let recent_prices := py_suffix prices period in
    (* Total movement over the period *)
    last_price ← py_last recent_prices;
    first_price ← py_first recent_prices;
    let total_movement := last_price - first_price in
    (* Velocity is movement per bar *)
    velocity ← py_div total_movement (Qofnat period);
    Ok (py_round velocity 4).

Definition calculate_acceleration (prices : list Q) (fast_period slow_period : nat)
  : result Q :=
  fast_velocity ← calculate_velocity prices fast_period;
  slow_velocity ← calculate_velocity prices slow_period;
  let acceleration := fast_velocity - slow_velocity in
  Ok (py_round acceleration 4).

Definition _determine_state (acceleration_threshold : Q)
    (fast_roc slow_roc acceleration velocity : Q) : string :=
  let velocity_threshold := 5 # 100 in
  let accel_threshold := acceleration_threshold in
  if Qlt_bool (Qabs velocity) velocity_threshold
     && Qlt_bool (Qabs acceleration) accel_threshold
  then "NEUTRAL"
  else
    let going_up := Qlt_bool 0 velocity in
    let going_down := Qlt_bool velocity 0 in
    let accelerating := Qlt_bool accel_threshold acceleration in
    let decelerating_accel := Qlt_bool acceleration (- accel_threshold) in
    if going_up then
      if accelerating then "ACCELERATING_LONG"
      else if decelerating_accel then "DECELERATING"
      else "NEUTRAL"
    else if going_down then
      if decelerating_accel then "ACCELERATING_SHORT"
      else if accelerating then "DECELERATING"
      else "NEUTRAL"
    else "NEUTRAL".

Definition calculate_momentum_slope (prices : list Q) (period : nat) : Q :=
  if (length prices <? period)%nat then 0
  else
    let recent_prices := py_suffix prices period in
    (* Simple linear regression slope *)
    let n := Qofnat (length recent_prices) in
    let xs := Qofnat <$> seq 0 (length recent_prices) in
    let sum_x := py_sum xs in
    let sum_y := py_sum recent_prices in
    let sum_xy := py_sum (zip_with Qmult xs recent_prices) in
    let sum_x2 := py_sum ((λ i, i * i) <$> xs) in
    let denominator := n * sum_x2 - sum_x * sum_x in
    if Qeq_bool denominator 0 then 0
    else py_round ((n * sum_xy - sum_x * sum_y) / denominator) 4.

Definition normalize_value (value baseline : Q) : Q :=
  if Qeq_bool baseline 0 then 0
  else py_round (value / baseline * 100) 4.

Record t : Type := {
  agent_name : string;
  agent_version : string;
  instrument : string;
  fast_period : nat;
  slow_period : nat;
  acceleration_threshold : Q
}.

Definition __init__ : t := {|
  agent_name := "MOMENTUM_READER";
  agent_version := "1.0";
  instrument := Settings.INSTRUMENT;
  fast_period := Settings.MOMENTUM_FAST_PERIOD;
  slow_period := Settings.MOMENTUM_SLOW_PERIOD;
  acceleration_threshold := Settings.MOMENTUM_ACCELERATION_THRESHOLD
|}.

(** The state of a price series: the four indicators, then
    [_determine_state]. *)
Definition state_of (self : t) (closes : list Q) : result string :=
  fast_roc ← calculate_rate_of_change closes (fast_period self);
  slow_roc ← calculate_rate_of_change closes (slow_period self);
  acceleration ← calculate_acceleration closes (fast_period self) (slow_period self);
  velocity ← calculate_velocity closes (fast_period self);
  Ok (_determine_state (acceleration_threshold self) fast_roc slow_roc acceleration velocity).

Definition _get_prior_state (self : t) (closes : list Q) : result string :=
  if (length closes <? slow_period self + 10)%nat then Ok "UNKNOWN"
  else
    (* Look at older data (exclude recent candles) *)
    let older_closes := py_drop_last closes 5 in
    state_of self older_closes.

(** The loop of [_estimate_state_duration] over the remaining values of [i];
    it stops at the first shorter series in another state. *)
Fixpoint duration_loop (self : t) (closes : list Q) (current_state : string)
    (steps : list nat) (duration : nat) : result nat :=
  match steps with
  | [] => Ok duration
  | i :: steps' =>
      let subset := py_drop_last closes i in
      if (length subset <? slow_period self + 5)%nat then Ok duration
      else
        state ← state_of self subset;
        if String.eqb state current_state
        then duration_loop self closes current_state steps' (duration + 1)
        else Ok duration
  end.

Definition _estimate_state_duration (self : t) (closes : list Q) (current_state : string)
  : result nat :=
  if (length closes <? slow_period self + 5)%nat then Ok 1%nat
  else
    duration ← duration_loop self closes current_state
                 (seq 1 (Nat.min 50 (length closes - slow_period self) - 1)) 0;
    Ok (Nat.max duration 1).

Definition _create_report (self : t) (state analysis_time status : string)
    (candle_count : nat) (fast_roc slow_roc velocity normalized_velocity acceleration slope : Q)
    (prior_state : string) (state_duration : nat) : value :=
  mkdict [
    ("agent", VStr (agent_name self));
    ("version", VStr (agent_version self));
    ("timestamp", VStr analysis_time);
    ("instrument", VStr (instrument self));
    ("status", VStr status);
    ("output", mkdict [
       ("state", VStr state);
       ("prior_state", VStr prior_state);
       ("state_duration_candles", VNum (Qofnat state_duration));
       ("velocity_normalized", VNum normalized_velocity)]);
    ("internals", mkdict [
       ("fast_roc", VNum fast_roc);
       ("slow_roc", VNum slow_roc);
       ("velocity", VNum velocity);
       ("acceleration", VNum acceleration);
       ("slope", VNum slope);
       ("candles_analyzed", VNum (Qofnat candle_count));
       ("fast_period", VNum (Qofnat (fast_period self)));
       ("slow_period", VNum (Qofnat (slow_period self)))])
  ].

Definition read_momentum (self : t) (candles : list candle) (analysis_time : string)
  : result value :=
  if (length candles <? slow_period self + 5)%nat then
    Ok (_create_report self "NEUTRAL" analysis_time "INSUFFICIENT_DATA" (length candles)
          0 0 0 0 0 0 "UNKNOWN" 0)
  else
    let closes := close <$> candles in
    fast_roc ← calculate_rate_of_change closes (fast_period self);
    slow_roc ← calculate_rate_of_change closes (slow_period self);
    fast_velocity ← calculate_velocity closes (fast_period self);
    slow_velocity ← calculate_velocity closes (slow_period self);
    acceleration ← calculate_acceleration closes (fast_period self) (slow_period self);
    let slope := calculate_momentum_slope closes (fast_period self) in
    (* Normalize velocity for easier interpretation *)
    avg_price ← py_div (py_sum (py_suffix closes (slow_period self)))
                  (Qofnat (slow_period self));
    let normalized_velocity := normalize_value fast_velocity avg_price in
    let state :=
      _determine_state (acceleration_threshold self) fast_roc slow_roc acceleration
        fast_velocity in
    prior_state ← _get_prior_state self closes;
    state_duration ← _estimate_state_duration self closes state;
    Ok (_create_report self state analysis_time "ANALYSIS_COMPLETE" (length candles)
          fast_roc slow_roc fast_velocity normalized_velocity acceleration slope
          prior_state state_duration).

End MomentumReader.

(** ** StructureMapper (agents/structure_mapper.py) *)

(** [sorted(l)] on numbers: the stable ascending sort. *)
Fixpoint insert_sorted (x : Q) (l : list Q) : list Q :=
  match l with
  | [] => [x]
  | y :: l' => if Qle_bool x y then x :: l else y :: insert_sorted x l'
  end.

Definition sorted (l : list Q) : list Q := foldr insert_sorted [] l.

(** [sorted(l, reverse=True)]: the stable descending sort. *)
Definition sorted_reverse (l : list Q) : list Q := rev (sorted (rev l)).

Module StructureMapper.
Import Settings.

Record swing_point : Type := {
  price : Q;
  index : nat;
  sp_timestamp : string
}.

Definition find_swing_highs (candles : list candle) (left_bars right_bars : nat)
  : list swing_point :=
  flat_map (λ i,
    match candles !! i with
    | None => []
    | Some c =>
        let current_high := high c in
        let lower j :=
          match candles !! j with
          | Some c' => Qlt_bool (high c') current_high
          | None => false
          end in
        (* all bars to the left, then all bars to the right, have lower highs *)
        let left_ok := forallb (λ j, lower (i - j)%nat) (seq 1 left_bars) in
        let right_ok := forallb (λ j, lower (i + j)%nat) (seq 1 right_bars) in
        if left_ok && right_ok
        then [{| price := current_high; index := i; sp_timestamp := timestamp c |}]
        else []
    end) (seq left_bars (length candles - right_bars - left_bars)).

Definition find_swing_lows (candles : list candle) (left_bars right_bars : nat)
  : list swing_point :=
  flat_map (λ i,
    match candles !! i with
    | None => []
    | Some c =>
        let current_low := low c in
        let higher j :=
          match candles !! j with
          | Some c' => Qlt_bool current_low (low c')
          | None => false
          end in
        let left_ok := forallb (λ j, higher (i - j)%nat) (seq 1 left_bars) in
        let right_ok := forallb (λ j, higher (i + j)%nat) (seq 1 right_bars) in
        if left_ok && right_ok
        then [{| price := current_low; index := i; sp_timestamp := timestamp c |}]
        else []
    end) (seq left_bars (length candles - right_bars - left_bars)).

(** [sum(cluster) / len(cluster)]; a cluster is never empty. *)
Definition cluster_mean (current_cluster : list Q) : Q :=
  py_sum current_cluster / Qofnat (length current_cluster).

(** The loop of [cluster_levels] over [sorted_levels[1:]]. *)
Fixpoint cluster_loop (min_distance : Q) (rest clusters current_cluster : list Q) : list Q :=
  match rest with
  | [] =>
      (* Don't forget the last cluster *)
      clusters ++ [cluster_mean current_cluster]
  | x :: rest' =>
      if Qle_bool (x - List.last current_cluster 0) min_distance
      then cluster_loop min_distance rest' clusters (current_cluster ++ [x])
      else cluster_loop min_distance rest'
             (clusters ++ [cluster_mean current_cluster]) [x]
  end.

Definition cluster_levels (levels : list Q) (min_distance : Q) : list Q :=
  (* [sorted levels] is empty exactly when [levels] is *)
  match sorted levels with
  | [] => []
  | first :: rest => cluster_loop min_distance rest [] [first]
  end.

Definition determine_level_strength (level_price : Q) (all_swing_points : list swing_point)
    (touch_threshold : Q) : string :=
  let touches :=
    length (filter (λ point, Qle_bool (Qabs (price point - level_price)) touch_threshold = true)
              all_swing_points) in
  if (2 <=? touches)%nat then "MAJOR" else "MINOR".

Definition determine_level_validity (level_price : Q) (candles : list candle) (threshold : Q)
  : string :=
  if (length candles <? 10)%nat then "FRESH"
  else
    let recent_candles := py_suffix candles 10 in
    let '(tested, broken) :=
      foldl (λ '(tested, broken) candle,
        if Qle_bool (low candle) level_price && Qle_bool level_price (high candle) then
          if Qlt_bool (level_price + threshold) (close candle)
             || Qlt_bool (close candle) (level_price - threshold)
          then (true, true) else (true, broken)
        else (tested, broken)) (false, false) recent_candles in
    if broken then "INVALID" else if tested then "USED" else "FRESH".

Record t : Type := {
  agent_name : string;
  agent_version : string;
  instrument : string;
  lookback : Z;
  min_distance_pips : Q;
  pip_size : Q
}.

Definition __init__ : t := {|
  agent_name := "STRUCTURE_MAPPER";
  agent_version := "1.0";
  instrument := INSTRUMENT;
  lookback := STRUCTURE_LOOKBACK_PERIODS;
  min_distance_pips := STRUCTURE_MIN_DISTANCE_PIPS;
  pip_size := PIP_SIZE
|}.

(** An entry of [levels_above] / [levels_below]. *)
Record level : Type := {
  lv_price : Q;
  lv_strength : string;
  lv_validity : string;
  lv_distance_pips : Q
}.

Definition level_to_value (l : level) : value :=
  mkdict [
    ("price", VNum (lv_price l));
    ("strength", VStr (lv_strength l));
    ("validity", VStr (lv_validity l));
    ("distance_pips", VNum (lv_distance_pips l))].

Definition _create_report (self : t) (levels_above levels_below : list level)
    (current_price : Q) (analysis_time status : string)
    (candle_count swing_highs_found swing_lows_found : nat) : value :=
  let nearest_above :=
    match levels_above with l :: _ => VNum (lv_distance_pips l) | [] => VNone end in
  let nearest_below :=
    match levels_below with l :: _ => VNum (lv_distance_pips l) | [] => VNone end in
  mkdict [
    ("agent", VStr (agent_name self));
    ("version", VStr (agent_version self));
    ("timestamp", VStr analysis_time);
    ("instrument", VStr (instrument self));
    ("status", VStr status);
    ("output", mkdict [
       ("current_price", VNum current_price);
       ("levels_above", VList (level_to_value <$> levels_above));
       ("levels_below", VList (level_to_value <$> levels_below));
       ("nearest_above_pips", nearest_above);
       ("nearest_below_pips", nearest_below)]);
    ("internals", mkdict [
       ("candles_analyzed", VNum (Qofnat candle_count));
       ("swing_highs_found", VNum (Qofnat swing_highs_found));
       ("swing_lows_found", VNum (Qofnat swing_lows_found));
       ("min_distance_pips", VNum (min_distance_pips self))])
  ].

(** The clustered levels [map_structure] computes from the swing points. *)
Definition clustered_levels (self : t) (candles : list candle) : list Q :=
  let swing_highs := find_swing_highs candles 3 3 in
  let swing_lows := find_swing_lows candles 3 3 in
  let high_prices := price <$> swing_highs in
  let low_prices := price <$> swing_lows in
  let all_level_prices := high_prices ++ low_prices in
  let min_distance := min_distance_pips self * pip_size self in
  cluster_levels all_level_prices min_distance.

(** The nearest three levels above ([above = true]) or below the current
    price, with strength, validity and distance. *)
Definition detailed_levels (self : t) (candles : list candle) (current_price : Q)
    (above : bool) : result (list level) :=
  let all_swings := find_swing_highs candles 3 3 ++ find_swing_lows candles 3 3 in
  let clustered := clustered_levels self candles in
  let levels :=
    if above
    then take 3 (sorted (filter (λ l, Qlt_bool current_price l = true) clustered))
    else take 3 (sorted_reverse (filter (λ l, Qlt_bool l current_price = true) clustered)) in
  let touch_threshold := min_distance_pips self * pip_size self in
  mapM (λ price,
    let strength := determine_level_strength price all_swings touch_threshold in
    let validity := determine_level_validity price candles touch_threshold in
    d ← py_div (if above then price - current_price else current_price - price)
          (pip_size self);
    Ok {| lv_price := py_round price 2;
          lv_strength := strength;
          lv_validity := validity;
          lv_distance_pips := py_round d 1 |}) levels.

Definition map_structure (self : t) (candles : list candle) (analysis_time : string)
  : result value :=
  if (length candles <? 10)%nat then
    Ok (_create_report self [] [] 0 analysis_time "INSUFFICIENT_DATA" (length candles) 0 0)
  else
    last_candle ← py_last candles;
    let current_price := close last_candle in
    levels_above_detailed ← detailed_levels self candles current_price true;
    levels_below_detailed ← detailed_levels self candles current_price false;
    Ok (_create_report self levels_above_detailed levels_below_detailed
          (py_round current_price 2) analysis_time "ANALYSIS_COMPLETE" (length candles)
          (length (find_swing_highs candles 3 3)) (length (find_swing_lows candles 3 3))).

End StructureMapper.

(** ** RiskCalculator (agents/risk_calculator.py) *)

Module RiskCalculator.
Import Settings.

Definition calculate_pip_value (instrument : string) (lot_size : Q) : Q :=
  if str_contains "XAU" instrument
  then 1 * lot_size   (* $1 per pip per lot *)
  else 10 * lot_size. (* forex pairs: approximately $10 per pip per standard lot *)

Definition calculate_position_size (risk_amount stop_distance_pips pip_value_per_lot : Q) : Q :=
  if Qle_bool stop_distance_pips 0 || Qle_bool pip_value_per_lot 0 then 0
  else
    (* the divisor is a product of two positive numbers *)
    let position_size := risk_amount / (stop_distance_pips * pip_value_per_lot) in
    (* Round to 2 decimal places (standard lot precision) *)
    py_round position_size 2.

Definition calculate_risk_for_position (lot_size stop_distance_pips pip_value_per_lot : Q) : Q :=
  let risk := lot_size * stop_distance_pips * pip_value_per_lot in
  py_round risk 2.

Record t : Type := {
  agent_name : string;
  agent_version : string;
  instrument : string;
  pip_size : Q;
  equity : Q;
  risk_per_trade : Q;
  max_daily_loss : Q;
  max_concurrent : Z;
  daily_pnl : Q;
  open_positions : Z;
  pip_value_per_lot : Q
}.

(** [RiskCalculator(equity=None, daily_pnl=0.0, open_positions=0)]. *)
Definition __init__ (equity : option Q) (daily_pnl : Q) (open_positions : Z) : t := {|
  agent_name := "RISK_CALCULATOR";
  agent_version := "1.0";
  instrument := INSTRUMENT;
  pip_size := PIP_SIZE;
  equity := match equity with Some e => e | None => ACCOUNT_EQUITY end;
  risk_per_trade := RISK_PER_TRADE;
  max_daily_loss := MAX_DAILY_LOSS;
  max_concurrent := MAX_CONCURRENT_POSITIONS;
  daily_pnl := daily_pnl;
  open_positions := open_positions;
  pip_value_per_lot := calculate_pip_value INSTRUMENT 1
|}.

(** A row of the position size table. *)
Record row : Type := {
  stop_pips : Q;
  lot_size : Q;
  risk_dollars : Q;
  risk_percent : Q
}.

Definition row_to_value (r : row) : value :=
  mkdict [
    ("stop_pips", VNum (stop_pips r));
    ("lot_size", VNum (lot_size r));
    ("risk_dollars", VNum (risk_dollars r));
    ("risk_percent", VNum (risk_percent r))].

(** Truth value of the optional argument: [None] and [0] are false. *)
Definition truthy (stop_distance_pips : option Q) : bool :=
  match stop_distance_pips with
  | Some s => negb (Qeq_bool s 0)
  | None => false
  end.

(** [risk_per_trade_dollars] as [calculate] computes it, before the report
    rounds it. *)
Definition risk_per_trade_dollars (self : t) : Q := equity self * risk_per_trade self.

(** The stop distances of the table. *)
Definition stop_distances (stop_distance_pips : option Q) : list Q :=
  let stop_distances := [20; 30; 50; 100; 150; 200] in
  match stop_distance_pips with
  | Some s =>
      if truthy stop_distance_pips && negb (existsb (Qeq_bool s) stop_distances)
      then sorted (stop_distances ++ [s]) else stop_distances
  | None => stop_distances
  end.

Definition position_size_table (self : t) (stop_distance_pips : option Q) : result (list row) :=
  mapM (λ stop,
    let lot_size :=
      calculate_position_size (risk_per_trade_dollars self) stop (pip_value_per_lot self) in
    let actual_risk := calculate_risk_for_position lot_size stop (pip_value_per_lot self) in
    ratio ← py_div actual_risk (equity self);
    Ok {| stop_pips := stop;
          lot_size := lot_size;
          risk_dollars := actual_risk;
          risk_percent := py_round (ratio * 100) 2 |}) (stop_distances stop_distance_pips).

(** [specific_calculation]: [None] unless a stop is given. *)
Definition specific_calculation (self : t) (stop_distance_pips : option Q) : option value :=
  match stop_distance_pips with
  | Some s =>
      if truthy stop_distance_pips then
        let lot_size :=
          calculate_position_size (risk_per_trade_dollars self) s (pip_value_per_lot self) in
        Some (mkdict [
          ("stop_pips", VNum s);
          ("lot_size", VNum lot_size);
          ("risk_dollars",
             VNum (calculate_risk_for_position lot_size s (pip_value_per_lot self)))])
      else None
  | None => None
  end.

Definition _create_report (self : t) (analysis_time : string)
    (risk_per_trade_dollars max_daily_loss_dollars daily_limit_remaining : Q)
    (daily_limit_breached can_open_new : bool) (position_size_table : list row)
    (specific_calculation : option value) : value :=
  let output : gmap string value := list_to_map [
    ("equity", VNum (equity self));
    ("risk_per_trade_dollars", VNum risk_per_trade_dollars);
    ("risk_per_trade_percent", VNum (risk_per_trade self * 100));
    ("daily_pnl", VNum (daily_pnl self));
    ("daily_limit_remaining", VNum daily_limit_remaining);
    ("daily_limit_breached", VBool daily_limit_breached);
    ("open_positions", VNum (inject_Z (open_positions self)));
    ("max_concurrent", VNum (inject_Z (max_concurrent self)));
    ("can_open_new_position", VBool can_open_new);
    ("position_size_table", VList (row_to_value <$> position_size_table))] in
  (* Add specific calculation if provided *)
  let output :=
    match specific_calculation with
    | Some sc => <["specific_calculation" := sc]> output
    | None => output
    end in
  mkdict [
    ("agent", VStr (agent_name self));
    ("version", VStr (agent_version self));
    ("timestamp", VStr analysis_time);
    ("instrument", VStr (instrument self));
    ("status", VStr "CALCULATION_COMPLETE");
    ("output", VDict output);
    ("internals", mkdict [
       ("max_daily_loss_dollars", VNum max_daily_loss_dollars);
       ("max_daily_loss_percent", VNum (max_daily_loss self * 100));
       ("pip_value_per_lot", VNum (pip_value_per_lot self));
       ("pip_size", VNum (pip_size self))])
  ].

Definition calculate (self : t) (stop_distance_pips : option Q) (analysis_time : string)
  : result value :=
  let risk_per_trade_dollars := risk_per_trade_dollars self in
  let max_daily_loss_dollars := equity self * max_daily_loss self in
  (* daily_pnl is negative if losing *)
  let daily_limit_remaining := max_daily_loss_dollars + daily_pnl self in
  let daily_limit_breached := Qle_bool daily_limit_remaining 0 in
  let can_open_new := (open_positions self <? max_concurrent self)%Z in
  position_size_table ← position_size_table self stop_distance_pips;
  let specific_calculation := specific_calculation self stop_distance_pips in
  Ok (_create_report self analysis_time
        (py_round risk_per_trade_dollars 2) (py_round max_daily_loss_dollars 2)
        (py_round daily_limit_remaining 2) daily_limit_breached can_open_new
        position_size_table specific_calculation).

(** [update_state(equity=None, daily_pnl=None, open_positions=None)]: the
    object after the call. *)
Definition update_state (self : t) (equity' daily_pnl' : option Q)
    (open_positions' : option Z) : t :=
  {| agent_name := agent_name self;
     agent_version := agent_version self;
     instrument := instrument self;
     pip_size := pip_size self;
     equity := match equity' with Some e => e | None => equity self end;
     risk_per_trade := risk_per_trade self;
     max_daily_loss := max_daily_loss self;
     max_concurrent := max_concurrent self;
     daily_pnl := match daily_pnl' with Some p => p | None => daily_pnl self end;
     open_positions :=
       match open_positions' with Some n => n | None => open_positions self end;
     pip_value_per_lot := pip_value_per_lot self |}.

End RiskCalculator.

(** ** RecencyCheck (agents/recency_check.py): the tick counters *)

Module RecencyCheck.

(** A tick; [mid] is [None] when the dictionary has no ['mid'] key. *)
Record tick : Type := { mid : option Q }.

(** [t.get('mid', 0)]. *)
Definition get_mid (t : tick) : Q := default 0 (mid t).

(** Returns [(up_count, down_count, unchanged_count)]. *)
Definition count_tick_directions (ticks : list tick) : nat * nat * nat :=
  if (length ticks <? 2)%nat then (0, 0, 0)%nat
  else
    foldl (λ '(up_count, down_count, unchanged_count) pc,
      let current := get_mid pc.2 in
      let previous := get_mid pc.1 in
      if Qlt_bool previous current then (S up_count, down_count, unchanged_count)
      else if Qlt_bool current previous then (up_count, S down_count, unchanged_count)
      else (up_count, down_count, S unchanged_count))
      (0, 0, 0)%nat (consecutive ticks).

Definition calculate_net_movement (ticks : list tick) (pip_size : Q) : result Q :=
  if (length ticks <? 2)%nat then Ok 0
  else
    first_tick ← py_first ticks;
    let first_price := get_mid first_tick in
    last_tick ← py_last ticks;
    let last_price := get_mid last_tick in
    if Qeq_bool pip_size 0 then Ok 0
    else
      let movement := (last_price - first_price) / pip_size in
      Ok (py_round movement 1).

End RecencyCheck.

(** ** BiasSynthesizer (run_all_agents.py) *)

Module RunAllAgents.

(** The [return] statement by which [calculate_bias] leaves. *)
Inductive bias_exit : Type :=
  | ExitChaos
  | ExitExtremeVolatility
  | ExitOffHours
  | ExitContradictionUp
  | ExitContradictionDown
  | ExitRangeAccelerating
  | ExitSessionClose
  | ExitBaseBias.

Definition calculate_bias_traced (regime momentum volatility session : value)
  : bias_exit * string :=
  (* First check for DO_NOT_TRADE conditions *)
  if regime ==? "CHAOS" then (ExitChaos, "DO_NOT_TRADE")
  else if volatility ==? "EXTREME" then (ExitExtremeVolatility, "DO_NOT_TRADE")
  else if session ==? "OFF_HOURS" then (ExitOffHours, "DO_NOT_TRADE")
  (* Check for contradictions (regime vs momentum) *)
  else if (regime ==? "TREND_UP") && (momentum ==? "ACCELERATING_SHORT")
  then (ExitContradictionUp, "DO_NOT_TRADE")
  else if (regime ==? "TREND_DOWN") && (momentum ==? "ACCELERATING_LONG")
  then (ExitContradictionDown, "DO_NOT_TRADE")
  else if (regime ==? "RANGE")
          && ((momentum ==? "ACCELERATING_LONG") || (momentum ==? "ACCELERATING_SHORT"))
  then (ExitRangeAccelerating, "DO_NOT_TRADE")
  else
    (* Calculate base bias from regime + momentum *)
    let base_bias := "NEUTRAL" in
    let base_bias :=
      if regime ==? "TREND_UP" then
        if momentum ==? "ACCELERATING_LONG" then "BULLISH_BIAS"
        else if momentum ==? "NEUTRAL" then "BULLISH_BIAS_WEAK"
        else if momentum ==? "DECELERATING" then "NEUTRAL"
        else base_bias
      else if regime ==? "TREND_DOWN" then
        if momentum ==? "ACCELERATING_SHORT" then "BEARISH_BIAS"
        else if momentum ==? "NEUTRAL" then "BEARISH_BIAS_WEAK"
        else if momentum ==? "DECELERATING" then "NEUTRAL"
        else base_bias
      else if regime ==? "RANGE" then "NEUTRAL"
      else base_bias in
    (* Modify by volatility *)
    let base_bias :=
      if volatility ==? "ELEVATED" then
        if String.eqb base_bias "BULLISH_BIAS" || String.eqb base_bias "BEARISH_BIAS"
        then "NEUTRAL" else base_bias
      else base_bias in
    (* Modify by session *)
    if session ==? "SESSION_CLOSE_30MIN" then (ExitSessionClose, "DO_NOT_TRADE")
    else
      let base_bias :=
        if (session ==? "ASIA")
           && (String.eqb base_bias "BULLISH_BIAS" || String.eqb base_bias "BEARISH_BIAS")
        then (if negb (str_contains "_WEAK" base_bias)
              then base_bias +:+ "_WEAK" else base_bias)
        else base_bias in
      (ExitBaseBias, base_bias).

Definition calculate_bias (regime momentum volatility session : value) : string :=
  snd (calculate_bias_traced regime momentum volatility session).

(** Returns the tuple [(is_forbidden, reason)]; [None] is Python's [None]. *)
Definition check_synthesis_forbidden (reports : value) : result (bool * option string) :=
  regime ← getpath reports ["regime"; "output"; "regime"];
  volatility ← getpath reports ["volatility"; "output"; "state"];
  spread ← getpath reports ["volatility"; "output"; "spread_status"];
  session ← getpath reports ["session"; "output"; "active_session"];
  boundary ← getpath reports ["session"; "output"; "boundary_flag"];
  (* Check forbidden conditions *)
  if regime ==? "CHAOS" then Ok (true, Some "REGIME = CHAOS")
  else if volatility ==? "EXTREME" then Ok (true, Some "VOLATILITY = EXTREME")
  else if (spread ==? "WIDE") || (spread ==? "EXTREME") then
    Ok (true, Some ("SPREAD = " +:+ match spread with VStr s => s | _ => "" end))
  else if session ==? "OFF_HOURS" then Ok (true, Some "SESSION = OFF_HOURS")
  else if boundary ==? "SESSION_CLOSE_30MIN" then Ok (true, Some "SESSION CLOSING IN 30 MIN")
  else
    (* Check for contradictions *)
    momentum ← getpath reports ["momentum"; "output"; "state"];
    if (regime ==? "TREND_UP") && (momentum ==? "ACCELERATING_SHORT")
    then Ok (true, Some "CONTRADICTION: TREND_UP vs ACCELERATING_SHORT")
    else if (regime ==? "TREND_DOWN") && (momentum ==? "ACCELERATING_LONG")
    then Ok (true, Some "CONTRADICTION: TREND_DOWN vs ACCELERATING_LONG")
    else Ok (false, None).

(** The four headline fields [run_all_agents] reads from the reports, and the
    bias computed from them. *)
Definition bias_of_reports (reports : value) : result string :=
  regime ← getpath reports ["regime"; "output"; "regime"];
  momentum ← getpath reports ["momentum"; "output"; "state"];
  volatility ← getpath reports ["volatility"; "output"; "state"];
  session ← getpath reports ["session"; "output"; "active_session"];
  Ok (calculate_bias regime momentum volatility session).

(** The synthesis step of [run_all_agents]: the bias, then the forbidden
    verdict. *)
Definition synthesis (reports : value) : result (string * (bool * option string)) :=
  bias ← bias_of_reports reports;
  forbidden_status ← check_synthesis_forbidden reports;
  Ok (bias, forbidden_status).

(** The values the docstring of [calculate_bias] lists as its results. *)
Definition bias_enumeration : list string :=
  ["BULLISH_BIAS"; "BEARISH_BIAS"; "NEUTRAL"; "DO_NOT_TRADE"].

(** [run_all_agents]: the readers are run on one snapshot (candles, current
    spread, clock reading), their reports are gathered and synthesized. The
    report of RecencyCheck, which the synthesis does not read, is taken as
    given. *)
Definition gather_reports (candles : list candle) (current_spread : option Q)
    (now : string) (hour minute : Z) (recency : value) : result value :=
  regime ← RegimeClassifier.classify RegimeClassifier.__init__ candles;
  structure ← StructureMapper.map_structure StructureMapper.__init__ candles now;
  momentum ← MomentumReader.read_momentum MomentumReader.__init__ candles now;
  volatility ← VolatilityAssessor.assess VolatilityAssessor.__init__ candles current_spread;
  let session := SessionClock.check_session SessionClock.__init__ now hour minute in
  risk ← RiskCalculator.calculate (RiskCalculator.__init__ (Some 10000) (-50) 0)
            (Some 50) now;
  Ok (mkdict [
    ("regime", regime); ("structure", structure); ("momentum", momentum);
    ("volatility", volatility); ("session", session); ("risk", risk);
    ("recency", recency)]).

Definition run_all_agents (candles : list candle) (current_spread : option Q)
    (now : string) (hour minute : Z) (recency : value)
  : result (value * string * (bool * option string)) :=
  reports ← gather_reports candles current_spread now hour minute recency;
  '(bias, forbidden_status) ← synthesis reports;
  Ok (reports, bias, forbidden_status).

End RunAllAgents.

(** ** The web dashboard's synthesis (dashboard.py) *)

Module Dashboard.

(** [safe_get(dictionary, *keys, default=default)]. *)
Fixpoint safe_get_loop (result : value) (keys : list string) (default : value) : value :=
  match keys with
  | [] => match result with VNone => default | _ => result end
  | key :: keys' =>
      match result with
      | VDict d =>
          (* result.get(key, default) *)
          safe_get_loop (match d !! key with Some x => x | None => default end) keys' default
      | _ => default
      end
  end.

Definition safe_get (dictionary : value) (keys : list string) (default : value) : value :=
  safe_get_loop dictionary keys default.

Definition calculate_bias (regime momentum volatility session : value) : string :=
  let regime_state := safe_get regime ["output"; "regime"] (VStr "UNKNOWN") in
  let momentum_state := safe_get momentum ["output"; "state"] (VStr "UNKNOWN") in
  let volatility_state :=
    safe_get volatility ["output"; "volatility_state"] (VStr "UNKNOWN") in
  let session_state := safe_get session ["output"; "active_session"] (VStr "UNKNOWN") in
  if regime_state ==? "CHAOS" then "DO_NOT_TRADE"
  else if volatility_state ==? "EXTREME" then "DO_NOT_TRADE"
  else if session_state ==? "OFF_HOURS" then "DO_NOT_TRADE"
  else if (regime_state ==? "TREND_UP")
          && ((momentum_state ==? "ACCELERATING_LONG") || (momentum_state ==? "NEUTRAL"))
  then "BULLISH_BIAS"
  else if (regime_state ==? "RANGE") && (momentum_state ==? "ACCELERATING_LONG")
  then "BULLISH_BIAS"
  else if (regime_state ==? "TREND_DOWN")
          && ((momentum_state ==? "ACCELERATING_SHORT") || (momentum_state ==? "NEUTRAL"))
  then "BEARISH_BIAS"
  else if (regime_state ==? "RANGE") && (momentum_state ==? "ACCELERATING_SHORT")
  then "BEARISH_BIAS"
  else "NEUTRAL".

(** Returns [(len(reasons) > 0, reasons)]. *)
Definition check_synthesis_forbidden (regime momentum volatility session recency : value)
  : bool * list string :=
  let reasons := [] in
  let regime_state := safe_get regime ["output"; "regime"] (VStr "UNKNOWN") in
  let reasons := if regime_state ==? "CHAOS" then reasons ++ ["REGIME_CHAOS"] else reasons in
  let volatility_state :=
    safe_get volatility ["output"; "volatility_state"] (VStr "UNKNOWN") in
  let spread_status := safe_get volatility ["output"; "spread_status"] (VStr "UNKNOWN") in
  let reasons :=
    if volatility_state ==? "EXTREME" then reasons ++ ["VOLATILITY_EXTREME"] else reasons in
  let reasons :=
    if (spread_status ==? "WIDE") || (spread_status ==? "EXTREME")
    then reasons ++ ["SPREAD_" +:+ match spread_status with VStr s => s | _ => "" end]
    else reasons in
  let session_state := safe_get session ["output"; "active_session"] (VStr "UNKNOWN") in
  let boundary_flag := safe_get session ["output"; "boundary_flag"] (VStr "NONE") in
  let reasons :=
    if session_state ==? "OFF_HOURS" then reasons ++ ["SESSION_OFF_HOURS"] else reasons in
  let reasons :=
    if boundary_flag ==? "SESSION_CLOSE_30MIN" then reasons ++ ["SESSION_CLOSING"]
    else reasons in
  ((0 <? length reasons)%nat, reasons).

End Dashboard.

(** ** Vocabulary of the properties *)

(** [s in l] on a list of string literals. *)
Definition in_strs (s : string) (l : list string) : bool := existsb (String.eqb s) l.

(** A reports dictionary with the keys [check_synthesis_forbidden] reads,
    around a given session report. *)
Definition reports_with_session (regime momentum volatility spread : string)
    (session_report : value) : value :=
  mkdict [
    ("regime", mkdict [("output", mkdict [("regime", VStr regime)])]);
    ("momentum", mkdict [("output", mkdict [("state", VStr momentum)])]);
    ("volatility", mkdict [("output", mkdict [
        ("state", VStr volatility); ("spread_status", VStr spread)])]);
    ("session", session_report)].

Definition headline_reports (regime momentum volatility spread session boundary : string)
  : value :=
  reports_with_session regime momentum volatility spread
    (mkdict [("output", mkdict [
        ("active_session", VStr session); ("boundary_flag", VStr boundary)])]).

(** The same headline fields under the keys the readers emit and
    dashboard.py reads. *)
Definition dashboard_volatility (volatility spread : string) : value :=
  mkdict [("output", mkdict [
    ("volatility_state", VStr volatility); ("spread_status", VStr spread)])].

(** The series [a, a + k, a + 2k, ...] of [n] prices: per-bar slope [k]. *)
Definition linear_series (a k : Q) (n : nat) : list Q :=
  (λ i, a + k * Qofnat i) <$> seq 0 n.

(** [gap d a b]: level [b] lies above level [a], by more than [d]. *)
Definition gap (d : Q) (a b : Q) : Prop := a <= b ∧ a + d < b.

(** The levels [map_structure] keeps on one side of the current price,
    before rounding. *)
Definition side_levels (self : StructureMapper.t) (candles : list candle)
    (current_price : Q) (above : bool) : list Q :=
  if above
  then take 3 (sorted (filter (λ l, Qlt_bool current_price l = true)
                         (StructureMapper.clustered_levels self candles)))
  else take 3 (sorted_reverse (filter (λ l, Qlt_bool l current_price = true)
                                 (StructureMapper.clustered_levels self candles))).




(** A candle around a given high: low = high - 1/2, close = high - 1/4. *)
Definition candle_at (h : Q) : candle :=
  {| open := h - (1 # 4); high := h; low := h - (1 # 2); close := h - (1 # 4);
     volume := 100; timestamp := "" |}.

(** Thirty candles rising by one per bar. *)
Definition rising_candles : list candle := (λ i, candle_at (Qofnat i)) <$> seq 0 30.


(** The state with long and short exchanged. *)
Definition mirror_state (state : string) : string :=
  if String.eqb state "ACCELERATING_LONG" then "ACCELERATING_SHORT"
  else if String.eqb state "ACCELERATING_SHORT" then "ACCELERATING_LONG"
  else state.

(** Twenty flat candles followed by five that rise by ten per bar. *)
Definition breakout_candles : list candle :=
  candle_at <$> (replicate 20%nat 100 ++ [110; 120; 130; 140; 150]).


(** Three ticks: the first without a mid price, then up, then unchanged. *)
Definition sample_ticks : list RecencyCheck.tick :=
  [{| RecencyCheck.mid := None |}; {| RecencyCheck.mid := Some 1 |};
   {| RecencyCheck.mid := Some 1 |}].

(** * Properties *)

(** ** Lookups in dictionary literals *)

Lemma getitem_insert_eq (d : gmap string value) k v :
  getitem (VDict (<[k := v]> d)) k = Ok v.
Proof. unfold getitem. by rewrite lookup_insert_eq. Qed.

Lemma getitem_insert_ne (d : gmap string value) k k' v :
  k ≠ k' → getitem (VDict (<[k := v]> d)) k' = getitem (VDict d) k'.
Proof. intros Hne. unfold getitem. by rewrite lookup_insert_ne. Qed.

Lemma bind_Ok {A B} (f : A → result B) a : (Ok a ≫= f) = f a.
Proof. reflexivity. Qed.

Lemma bind_Raise {A B} (f : A → result B) e : (Raise e ≫= f) = Raise e.
Proof. reflexivity. Qed.

Lemma bind_raises {A B} (f : A → result B) m : raises m → raises (m ≫= f).
Proof. intros [e ->]. by exists e. Qed.

Lemma py_div_nonzero a b : ¬ b == 0 → py_div a b = Ok (a / b).
Proof.
  intros Hb. unfold py_div.
  destruct (Qeq_bool b 0) eqn:E; [|done].
  by apply Qeq_bool_eq in E.
Qed.

Lemma Qofnat_nonzero n : (0 < n)%nat → ¬ Qofnat n == 0.
Proof.
  intros Hn. unfold Qofnat, Qeq. simpl. lia.
Qed.

Lemma Qofnat_pos n : (0 < n)%nat → 0 < Qofnat n.
Proof. intros Hn. unfold Qofnat, Qlt. simpl. lia. Qed.

Lemma Qlt_bool_iff x y : Qlt_bool x y = true ↔ x < y.
Proof.
  unfold Qlt_bool. rewrite negb_true_iff.
  split.
  - intros H. apply Qnot_le_lt. intros Hle. apply Qle_bool_iff in Hle. congruence.
  - intros H. destruct (Qle_bool y x) eqn:E; [|done].
    apply Qle_bool_iff in E. lra.
Qed.

Lemma Qlt_bool_false x y : Qlt_bool x y = false ↔ y <= x.
Proof.
  unfold Qlt_bool. rewrite negb_false_iff. apply Qle_bool_iff.
Qed.

Lemma Qle_bool_false x y : Qle_bool x y = false ↔ y < x.
Proof.
  rewrite <- Qlt_bool_iff. unfold Qlt_bool. by rewrite negb_true_iff.
Qed.

Lemma in_strs_elem s l : in_strs s l = true → s ∈ l.
Proof.
  unfold in_strs. rewrite existsb_exists. intros (x & Hin & Heq).
  apply String.eqb_eq in Heq. subst. by apply list_elem_of_In.
Qed.

Lemma in_strs_not_elem s l : in_strs s l = false → s ∉ l.
Proof.
  intros Hf Hin. apply list_elem_of_In in Hin.
  assert (in_strs s l = true) as Ht; [|congruence].
  apply existsb_exists. exists s. split; [done|apply String.eqb_refl].
Qed.

(** ** BiasSynthesizer *)

Section synthesis.
Import RunAllAgents.

Ltac split_tests :=
  repeat (match goal with
          | |- context [py_eq_str ?v ?s] => destruct (py_eq_str v s)
          end; cbv beta iota zeta delta [andb orb negb snd fst]).

Lemma calculate_bias_range regime momentum volatility session :
  calculate_bias regime momentum volatility session
    ∈ bias_enumeration ++ ["BULLISH_BIAS_WEAK"; "BEARISH_BIAS_WEAK"].
Proof.
  apply in_strs_elem.
  unfold calculate_bias, calculate_bias_traced, bias_enumeration.
  split_tests; reflexivity.
Qed.

Lemma calculate_bias_traced_no_close regime momentum volatility (session : string) :
  session ≠ "SESSION_CLOSE_30MIN" →
  fst (calculate_bias_traced regime momentum volatility (VStr session)) ≠ ExitSessionClose.
Proof.
  intros Hs.
  assert ((VStr session ==? "SESSION_CLOSE_30MIN") = false) as Hf.
  { simpl. by apply String.eqb_neq. }
  unfold calculate_bias_traced. rewrite Hf.
  split_tests; discriminate.
Qed.

Lemma active_session_values asia london new_york :
  SessionClock._determine_active_session asia london new_york
    ∈ ["ASIA"; "LONDON"; "NEW_YORK"; "OVERLAP_LONDON_NY"; "OFF_HOURS"].
Proof. destruct asia, london, new_york; apply in_strs_elem; reflexivity. Qed.

(** dashboard.py's check on a CHAOS regime with an EXTREME spread: both
    reasons are collected. *)
Lemma dashboard_collects_all_reasons momentum recency :
  Dashboard.check_synthesis_forbidden
    (mkdict [("output", mkdict [("regime", VStr "CHAOS")])]) momentum
    (dashboard_volatility "NORMAL" "EXTREME")
    (mkdict [("output", mkdict [
        ("active_session", VStr "LONDON"); ("boundary_flag", VStr "NONE")])]) recency
  = (true, ["REGIME_CHAOS"; "SPREAD_EXTREME"]).
Proof. reflexivity. Qed.

(** C2. With regime CHAOS and spread status EXTREME both veto conditions
    hold, yet [check_synthesis_forbidden] of run_all_agents.py returns at the
    first one: its single reason is the regime, whatever the other fields
    are, and the spread is not reported. *)
Theorem check_synthesis_forbidden_first_reason_only
    momentum volatility session boundary :
  check_synthesis_forbidden
    (headline_reports "CHAOS" momentum volatility "EXTREME" session boundary)
  = Ok (true, Some "REGIME = CHAOS").
Proof. reflexivity. Qed.

(** C3. A TREND_UP regime confirmed by NEUTRAL momentum (normal volatility,
    London session) yields BULLISH_BIAS_WEAK, and so does agreeing momentum
    in the Asia session: values outside the four-value enumeration. *)
Theorem calculate_bias_outside_enumeration :
  calculate_bias (VStr "TREND_UP") (VStr "NEUTRAL") (VStr "NORMAL") (VStr "LONDON")
    = "BULLISH_BIAS_WEAK"
  ∧ calculate_bias (VStr "TREND_UP") (VStr "ACCELERATING_LONG") (VStr "NORMAL") (VStr "ASIA")
    = "BULLISH_BIAS_WEAK"
  ∧ calculate_bias (VStr "TREND_DOWN") (VStr "NEUTRAL") (VStr "NORMAL") (VStr "LONDON")
    = "BEARISH_BIAS_WEAK"
  ∧ ("BULLISH_BIAS_WEAK" ∉ bias_enumeration)
  ∧ ("BEARISH_BIAS_WEAK" ∉ bias_enumeration).
Proof.
  split_and!; try reflexivity; apply in_strs_not_elem; reflexivity.
Qed.

Lemma getpath_insert_ne (d : gmap string value) k k' v ks :
  k ≠ k' → getpath (VDict (<[k := v]> d)) (k' :: ks) = getpath (VDict d) (k' :: ks).
Proof. intros Hne. cbn [getpath]. by rewrite getitem_insert_ne. Qed.

Lemma getpath_insert_eq (d : gmap string value) k v ks :
  getpath (VDict (<[k := v]> d)) (k :: ks) = getpath v ks.
Proof. cbn [getpath]. by rewrite getitem_insert_eq. Qed.

Lemma bias_of_reports_session (d : gmap string value) (session_report : value) active rest :
  getitem session_report "output" = Ok (VDict (<["active_session" := active]> rest)) →
  bias_of_reports (VDict (<["session" := session_report]> d))
  = (regime ← getpath (VDict d) ["regime"; "output"; "regime"];
     momentum ← getpath (VDict d) ["momentum"; "output"; "state"];
     volatility ← getpath (VDict d) ["volatility"; "output"; "state"];
     Ok (calculate_bias regime momentum volatility active)).
Proof.
  intros Hout. unfold bias_of_reports.
  rewrite (getpath_insert_ne d "session" "regime") by done.
  rewrite (getpath_insert_ne d "session" "momentum") by done.
  rewrite (getpath_insert_ne d "session" "volatility") by done.
  rewrite getpath_insert_eq.
  cbn [getpath]. rewrite Hout. cbn [mbind result_bind].
  rewrite getitem_insert_eq. reflexivity.
Qed.

(** C10. The active session SessionClock reports is one of ASIA, LONDON,
    NEW_YORK, OVERLAP_LONDON_NY, OFF_HOURS; for each of them [calculate_bias]
    never leaves by its SESSION_CLOSE_30MIN branch; the bias computed from
    the reports does not depend on the boundary flag of the session report;
    and the forbidden check, which reads that flag, vetoes on it. *)
Theorem session_close_branch_never_taken :
  (∀ asia london new_york,
     SessionClock._determine_active_session asia london new_york
       ∈ ["ASIA"; "LONDON"; "NEW_YORK"; "OVERLAP_LONDON_NY"; "OFF_HOURS"])
  ∧ (∀ regime momentum volatility (session : string),
       session ∈ ["ASIA"; "LONDON"; "NEW_YORK"; "OVERLAP_LONDON_NY"; "OFF_HOURS"] →
       fst (calculate_bias_traced regime momentum volatility (VStr session))
         ≠ ExitSessionClose)
  ∧ (∀ (d : gmap string value) self active_session analysis_time hour minute age to_close
       next asia london new_york boundary_flag boundary_flag',
       bias_of_reports (VDict (<["session" :=
           SessionClock._create_report self active_session analysis_time hour minute age
             to_close boundary_flag next asia london new_york]> d))
       = bias_of_reports (VDict (<["session" :=
           SessionClock._create_report self active_session analysis_time hour minute age
             to_close boundary_flag' next asia london new_york]> d)))
  ∧ (∀ analysis_time,
       getpath (SessionClock.check_session SessionClock.__init__ analysis_time 21 45)
         ["output"; "boundary_flag"] = Ok (VStr "SESSION_CLOSE_30MIN")
       ∧ check_synthesis_forbidden
           (reports_with_session "RANGE" "NEUTRAL" "NORMAL" "ACCEPTABLE"
              (SessionClock.check_session SessionClock.__init__ analysis_time 21 45))
         = Ok (true, Some "SESSION CLOSING IN 30 MIN")
       ∧ bias_of_reports
           (reports_with_session "RANGE" "NEUTRAL" "NORMAL" "ACCEPTABLE"
              (SessionClock.check_session SessionClock.__init__ analysis_time 21 45))
         = Ok "NEUTRAL").
Proof.
  split; [exact active_session_values|].
  split.
  { intros regime momentum volatility session Hs.
    apply calculate_bias_traced_no_close.
    intros ->. revert Hs. apply in_strs_not_elem. reflexivity. }
  split.
  { intros. erewrite !bias_of_reports_session; reflexivity. }
  intros analysis_time. repeat split; reflexivity.
Qed.

(** The theorem at the New York session and a RANGE regime. *)
Lemma session_close_branch_never_taken_witness :
  fst (calculate_bias_traced (VStr "RANGE") (VStr "NEUTRAL") (VStr "NORMAL")
         (VStr "NEW_YORK")) ≠ ExitSessionClose.
Proof.
  apply (proj1 (proj2 session_close_branch_never_taken)).
  apply in_strs_elem. reflexivity.
Defined.

End synthesis.

(** ** VolatilityAssessor and the synthesis of run_all_agents.py *)

Section volatility.
Import VolatilityAssessor RunAllAgents.

Lemma atr_loop_returns period trs atr :
  (0 < period)%nat → returns (atr_loop period trs atr).
Proof.
  intros Hp. revert atr.
  induction trs as [|tr trs IH]; intros atr; simpl.
  - by exists atr.
  - rewrite py_div_nonzero by by apply Qofnat_nonzero.
    apply IH.
Qed.

Lemma calculate_atr_returns candles period :
  (0 < period)%nat → returns (calculate_atr candles period).
Proof.
  intros Hp. unfold calculate_atr.
  destruct (length candles <? period + 1)%nat; [by eexists|].
  set (tr_list := _ <$> consecutive candles).
  destruct (length tr_list <? period)%nat.
  - destruct tr_list as [|tr trs] eqn:E; [by eexists|].
    rewrite py_div_nonzero; [by eexists|].
    apply Qofnat_nonzero. simpl. lia.
  - rewrite py_div_nonzero by by apply Qofnat_nonzero.
    by apply atr_loop_returns.
Qed.

Lemma calculate_baseline_atr_returns candles period lookback :
  (0 < period)%nat → returns (calculate_baseline_atr candles period lookback).
Proof.
  intros Hp. unfold calculate_baseline_atr.
  destruct (length candles <? lookback)%nat; by apply calculate_atr_returns.
Qed.

(** Every report of [assess] has an output map with the key
    ["volatility_state"] and without the key ["state"]. *)
Lemma assess_output_keys candles spread :
  ∃ status out,
    assess __init__ candles spread = Ok (mkdict [("status", status); ("output", VDict out)])
    ∧ out !! "state" = None
    ∧ is_Some (out !! "volatility_state").
Proof.
  unfold assess.
  destruct (bool_decide (candles = []) || (length candles <? 2)%nat).
  { eexists _, _. split; [reflexivity|]. split; [reflexivity|]. by eexists. }
  destruct (calculate_atr_returns candles 14) as [atr_current ->]; [lia|].
  destruct (calculate_baseline_atr_returns candles 14 50) as [atr_baseline ->]; [lia|].
  cbn [mbind result_bind].
  assert (¬ pip_size __init__ == 0) as Hpip by (by unfold Qeq).
  rewrite !py_div_nonzero by done.
  eexists _, _. split; [reflexivity|]. split; [reflexivity|]. by eexists.
Qed.

(** For every candle series and spread, VolatilityAssessor returns a
    report, and on every reports dictionary that holds this report under
    ["volatility"] both the forbidden check and the synthesis step of
    run_all_agents.py raise (the report has no ["state"] key) instead of
    returning a verdict and a bias. *)
Lemma synthesis_raises_on_volatility_report
    (candles : list candle) (spread : option Q) (d : gmap string value) :
  ∃ vol,
    assess __init__ candles spread = Ok vol
    ∧ raises (check_synthesis_forbidden (VDict (<["volatility" := vol]> d)))
    ∧ raises (synthesis (VDict (<["volatility" := vol]> d))).
Proof.
  destruct (assess_output_keys candles spread) as (status & out & -> & Hstate & _).
  eexists. split; [reflexivity|].
  assert (getpath (VDict (<["volatility" :=
            mkdict [("status", status); ("output", VDict out)]]> d))
            ["volatility"; "output"; "state"] = Raise (KeyError "state")) as Hvol.
  { rewrite getpath_insert_eq. cbn [getpath].
    assert (getitem (mkdict [("status", status); ("output", VDict out)]) "output"
            = Ok (VDict out)) as -> by reflexivity.
    cbn [mbind result_bind]. unfold getitem. by rewrite Hstate. }
  split.
  - unfold check_synthesis_forbidden.
    destruct (getpath _ ["regime"; "output"; "regime"]) as [regime|e]; [|by eexists].
    cbn [mbind result_bind]. rewrite Hvol. by eexists.
  - unfold synthesis. apply bind_raises. unfold bias_of_reports.
    destruct (getpath _ ["regime"; "output"; "regime"]) as [regime|e]; [|by eexists].
    cbn [mbind result_bind].
    destruct (getpath _ ["momentum"; "output"; "state"]) as [momentum|e]; [|by eexists].
    cbn [mbind result_bind]. rewrite Hvol. by eexists.
Qed.

End volatility.

(** ** RegimeClassifier: short series *)

Section regime_short.
Import RegimeClassifier.

(** C8. With fewer than lookback + 1 candles (the empty series included)
    [classify] returns, without raising, a report of status ERROR, regime
    UNKNOWN and ADX 0; [calculate_adx] returns zeros as well. *)
Theorem classify_short_series (self : t) (candles : list candle) :
  (length candles < lookback self + 1)%nat →
  ∃ report,
    classify self candles = Ok report
    ∧ getpath report ["status"] = Ok (VStr "ERROR")
    ∧ getpath report ["output"; "regime"] = Ok (VStr "UNKNOWN")
    ∧ getpath report ["output"; "internals"; "adx"] = Ok (VNum 0)
    ∧ calculate_adx candles (lookback self) = Ok (0, 0, 0).
Proof.
  intros Hlen. apply Nat.ltb_lt in Hlen.
  unfold classify, calculate_adx. rewrite Hlen, orb_true_r.
  eexists. split; [reflexivity|]. by repeat split.
Qed.

(** The theorem on the empty series and on a series of one candle. *)
Lemma classify_short_series_witness :
  ∃ report,
    classify __init__ [] = Ok report
    ∧ getpath report ["status"] = Ok (VStr "ERROR")
    ∧ getpath report ["output"; "regime"] = Ok (VStr "UNKNOWN")
    ∧ getpath report ["output"; "internals"; "adx"] = Ok (VNum 0)
    ∧ calculate_adx [] (lookback __init__) = Ok (0, 0, 0).
Proof. apply (classify_short_series __init__ []). simpl. lia. Defined.

End regime_short.

(** ** RiskCalculator *)

Lemma mapM_Ok {A B} (f : A → result B) (g : A → B) (l : list A) :
  (∀ x, f x = Ok (g x)) → mapM f l = Ok (g <$> l).
Proof.
  intros Hf. induction l as [|x l IH]; [reflexivity|].
  cbn [mapM]. rewrite Hf, IH. reflexivity.
Qed.

Section risk.
Import RiskCalculator.

Lemma calculate_position_size_formula risk_amount stop_distance_pips pip_value_per_lot :
  0 < stop_distance_pips → 0 < pip_value_per_lot →
  calculate_position_size risk_amount stop_distance_pips pip_value_per_lot
  = py_round (risk_amount / (stop_distance_pips * pip_value_per_lot)) 2.
Proof.
  intros Hs Hp. unfold calculate_position_size.
  apply Qle_bool_false in Hs, Hp. by rewrite Hs, Hp.
Qed.

Lemma position_size_table_returns self stop_distance_pips :
  ¬ equity self == 0 → returns (position_size_table self stop_distance_pips).
Proof.
  intros He. unfold position_size_table.
  erewrite mapM_Ok; [by eexists|].
  intros stop. cbv zeta. rewrite py_div_nonzero by done. reflexivity.
Qed.



End risk.

(** ** MomentumReader: velocity of a linear series *)

Lemma Qofnat_add n m : Qofnat (n + m) == Qofnat n + Qofnat m.
Proof. unfold Qofnat. by rewrite Nat2Z.inj_add, inject_Z_plus. Qed.

Lemma Qofnat_S n : Qofnat (S n) == Qofnat n + 1.
Proof. rewrite <- Nat.add_1_r, Qofnat_add. reflexivity. Qed.

Section velocity.
Import MomentumReader.

Lemma py_suffix_linear a k n p :
  (1 <= p <= n)%nat →
  py_suffix (linear_series a k n) p = (λ i, a + k * Qofnat i) <$> seq (n - p) p.
Proof.
  intros Hp. unfold py_suffix, linear_series.
  destruct p as [|p]; [lia|].
  rewrite length_fmap, length_seq, <- fmap_drop, drop_seq.
  do 2 f_equal; lia.
Qed.

(** On a linear series of slope [k] the velocity over the trailing [p]
    prices is [k * (p - 1) / p], rounded to four decimals: the window holds
    [p] prices, hence [p - 1] bars, and the movement is divided by [p]. *)
Lemma calculate_velocity_linear a k n p :
  (1 <= p <= n)%nat →
  ∃ v, calculate_velocity (linear_series a k n) p = Ok (py_round v 4)
       ∧ v == k * (Qofnat p - 1) / Qofnat p.
Proof.
  intros Hp. unfold calculate_velocity.
  assert ((length (linear_series a k n) <? p)%nat = false) as ->.
  { apply Nat.ltb_ge. unfold linear_series. rewrite length_fmap, length_seq. lia. }
  rewrite py_suffix_linear by done.
  unfold py_last, py_first.
  rewrite fmap_last, last_lookup, length_seq, lookup_seq_lt by lia.
  destruct p as [|p]; [lia|]. cbn [fmap option_fmap option_map seq list_fmap].
  cbn [mbind result_bind].
  rewrite py_div_nonzero by (apply Qofnat_nonzero; lia).
  eexists. split; [reflexivity|].
  cbn [Nat.pred]. rewrite Qofnat_add, Qofnat_S.
  field. pose proof (Qofnat_pos (S p) ltac:(lia)) as Hpos.
  rewrite Qofnat_S in Hpos. lra.
Qed.

(** C4. On the series 0, 1, 2, 3, 4 (slope 1 per bar) the velocity over the
    trailing 5-bar window is 0.8, not the slope 1. *)
Theorem calculate_velocity_linear_not_slope :
  ∃ v, calculate_velocity (linear_series 0 1 5) 5 = Ok v
       ∧ v == 8 # 10
       ∧ 1 # 10000 < Qabs (v - 1).
Proof. eexists. split; [reflexivity|]. split; reflexivity. Qed.

End velocity.

(** ** StructureMapper: clustering *)

Section sums.

Lemma foldl_Qplus_lower lo l acc :
  (∀ y, y ∈ l → lo <= y) → acc + lo * Qofnat (length l) <= foldl Qplus acc l.
Proof.
  revert acc. induction l as [|x l IH]; intros acc Hlo.
  - cbn. change (Qofnat 0) with 0. lra.
  - cbn [foldl length]. rewrite Qofnat_S.
    assert (lo <= x) by (apply Hlo; left).
    eapply Qle_trans; [|apply IH; intros; apply Hlo; by right].
    lra.
Qed.

Lemma foldl_Qplus_upper hi l acc :
  (∀ y, y ∈ l → y <= hi) → foldl Qplus acc l <= acc + hi * Qofnat (length l).
Proof.
  revert acc. induction l as [|x l IH]; intros acc Hhi.
  - cbn. change (Qofnat 0) with 0. lra.
  - cbn [foldl length]. rewrite Qofnat_S.
    assert (x <= hi) by (apply Hhi; left).
    eapply Qle_trans; [apply IH; intros; apply Hhi; by right|].
    lra.
Qed.

Lemma foldl_Qplus_lower_strict lo l acc :
  l ≠ [] → (∀ y, y ∈ l → lo < y) → acc + lo * Qofnat (length l) < foldl Qplus acc l.
Proof.
  intros Hne Hlo. destruct l as [|x l]; [done|].
  cbn [foldl length]. rewrite Qofnat_S.
  assert (lo < x) by (apply Hlo; left).
  eapply Qlt_le_trans; [|apply (foldl_Qplus_lower lo)].
  - lra.
  - intros y Hy. apply Qlt_le_weak, Hlo. by right.
Qed.

End sums.

Section clustering.
Import StructureMapper.

Lemma cluster_mean_lower lo l :
  l ≠ [] → (∀ y, y ∈ l → lo <= y) → lo <= cluster_mean l.
Proof.
  intros Hne Hlo. unfold cluster_mean, py_sum.
  apply Qle_shift_div_l.
  - apply Qofnat_pos. destruct l; [done|simpl; lia].
  - pose proof (foldl_Qplus_lower lo l 0 Hlo). lra.
Qed.

Lemma cluster_mean_upper hi l :
  l ≠ [] → (∀ y, y ∈ l → y <= hi) → cluster_mean l <= hi.
Proof.
  intros Hne Hhi. unfold cluster_mean, py_sum.
  apply Qle_shift_div_r.
  - apply Qofnat_pos. destruct l; [done|simpl; lia].
  - pose proof (foldl_Qplus_upper hi l 0 Hhi). lra.
Qed.

Lemma cluster_mean_lower_strict lo l :
  l ≠ [] → (∀ y, y ∈ l → lo < y) → lo < cluster_mean l.
Proof.
  intros Hne Hlo. unfold cluster_mean, py_sum.
  apply Qlt_shift_div_l.
  - apply Qofnat_pos. destruct l; [done|simpl; lia].
  - pose proof (foldl_Qplus_lower_strict lo l 0 Hne Hlo). lra.
Qed.


Lemma gap_mean d m cur :
  cur ≠ [] → (∀ y, y ∈ cur → gap d m y) → gap d m (cluster_mean cur).
Proof.
  intros Hne Hg. split.
  - apply cluster_mean_lower; [done|]. intros y Hy. apply Hg, Hy.
  - apply cluster_mean_lower_strict; [done|]. intros y Hy. apply Hg, Hy.
Qed.

Lemma last_elem_of (l : list Q) d : l ≠ [] → List.last l d ∈ l.
Proof.
  intros Hne. destruct (exists_last Hne) as (l' & x & ->).
  rewrite last_last. set_solver.
Qed.

(** The loop invariant: the closed clusters are gapped, every closed
    cluster lies more than [min_distance] below the open cluster, whose
    largest member is its last, and the remaining input is sorted above it. *)
Lemma cluster_loop_gapped min_distance rest clusters cur :
  StronglySorted (gap min_distance) clusters →
  cur ≠ [] →
  (∀ m y, m ∈ clusters → y ∈ cur → gap min_distance m y) →
  (∀ y, y ∈ cur → y <= List.last cur 0) →
  (∀ z, z ∈ rest → List.last cur 0 <= z) →
  StronglySorted Qle rest →
  StronglySorted (gap min_distance) (cluster_loop min_distance rest clusters cur).
Proof.
  revert clusters cur.
  induction rest as [|x rest IH]; intros clusters cur Hcl Hne Hsep Hlast Hrest Hsorted.
  - cbn [cluster_loop]. apply StronglySorted_app_2; [|done|repeat constructor].
    intros m y Hm Hy. apply list_elem_of_singleton in Hy as ->.
    apply gap_mean; [done|]. intros y Hy. by apply Hsep.
  - cbn [cluster_loop].
    apply StronglySorted_cons in Hsorted as [Hx Hsorted].
    rewrite Forall_forall in Hx.
    assert (List.last cur 0 <= x) as Hlx by (apply Hrest; left).
    assert (∀ m, m ∈ clusters → gap min_distance m x) as Hmx.
    { intros m Hm.
      destruct (Hsep m (List.last cur 0) Hm (last_elem_of _ _ Hne)) as [H1 H2].
      split; lra. }
    destruct (Qle_bool (x - List.last cur 0) min_distance) eqn:E.
    + apply IH.
      * done.
      * by destruct cur.
      * intros m y Hm Hy. apply elem_of_app in Hy as [Hy|Hy]; [by apply Hsep|].
        apply list_elem_of_singleton in Hy as ->. by apply Hmx.
      * intros y Hy. rewrite last_last.
        apply elem_of_app in Hy as [Hy|Hy].
        -- pose proof (Hlast y Hy). lra.
        -- apply list_elem_of_singleton in Hy as ->. lra.
      * intros z Hz. rewrite last_last. by apply Hx.
      * done.
    + apply Qle_bool_false in E.
      assert (gap min_distance (cluster_mean cur) x) as Hcx.
      { pose proof (cluster_mean_upper (List.last cur 0) cur Hne Hlast).
        split; lra. }
      apply IH.
      * apply StronglySorted_app_2; [|done|repeat constructor].
        intros m y Hm Hy. apply list_elem_of_singleton in Hy as ->.
        apply gap_mean; [done|]. intros y Hy. by apply Hsep.
      * done.
      * intros m y Hm Hy. apply list_elem_of_singleton in Hy as ->.
        apply elem_of_app in Hm as [Hm|Hm]; [by apply Hmx|].
        by apply list_elem_of_singleton in Hm as ->.
      * intros y Hy. apply list_elem_of_singleton in Hy as ->. cbn. lra.
      * intros z Hz. cbn. by apply Hx.
      * done.
Qed.

(** *** The stable sort *)

Lemma insert_sorted_elem_of x y l : y ∈ insert_sorted x l ↔ y = x ∨ y ∈ l.
Proof.
  induction l as [|z l IH]; cbn [insert_sorted].
  - rewrite list_elem_of_singleton, elem_of_nil. tauto.
  - destruct (Qle_bool x z); rewrite !elem_of_cons; [tauto|].
    rewrite IH. tauto.
Qed.

Lemma insert_sorted_StronglySorted x l :
  StronglySorted Qle l → StronglySorted Qle (insert_sorted x l).
Proof.
  induction 1 as [|z l Hl IH Hz]; cbn [insert_sorted]; [repeat constructor|].
  destruct (Qle_bool x z) eqn:E.
  - apply Qle_bool_iff in E. constructor; [by constructor|].
    constructor; [done|]. eapply Forall_impl; [exact Hz|].
    intros y Hy. cbn in Hy. lra.
  - apply Qle_bool_false in E. constructor; [done|].
    apply Forall_forall. intros y Hy. apply insert_sorted_elem_of in Hy as [->|Hy].
    + lra.
    + rewrite Forall_forall in Hz. by apply Hz.
Qed.

Lemma sorted_StronglySorted l : StronglySorted Qle (sorted l).
Proof.
  induction l as [|x l IH]; [constructor|]. by apply insert_sorted_StronglySorted.
Qed.


(** Sorting a sorted list changes nothing. *)
Lemma sorted_id l : StronglySorted Qle l → sorted l = l.
Proof.
  induction 1 as [|x l Hl IH Hx]; [done|].
  unfold sorted in *. cbn [foldr]. rewrite IH.
  destruct l as [|y l]; [done|]. cbn [insert_sorted].
  apply Forall_cons in Hx as [Hxy _]. apply Qle_bool_iff in Hxy. by rewrite Hxy.
Qed.

Lemma gap_Qle d l : StronglySorted (gap d) l → StronglySorted Qle l.
Proof.
  induction 1 as [|x l Hl IH Hx]; constructor; [done|].
  eapply Forall_impl; [exact Hx|]. by intros y [? _].
Qed.

(** *** [cluster_levels] *)

(** The clustered levels are in ascending order and any later one exceeds
    any earlier one by more than [min_distance]. *)
Lemma cluster_levels_gapped levels min_distance :
  StronglySorted (gap min_distance) (cluster_levels levels min_distance).
Proof.
  unfold cluster_levels.
  pose proof (sorted_StronglySorted levels) as Hs.
  destruct (sorted levels) as [|first rest]; [constructor|].
  apply StronglySorted_cons in Hs as [Hfirst Hs].
  apply cluster_loop_gapped; try done.
  - constructor.
  - intros m y Hm. by apply elem_of_nil in Hm.
  - intros y Hy. apply list_elem_of_singleton in Hy as ->. cbn. lra.
  - intros z Hz. cbn. rewrite Forall_forall in Hfirst. by apply Hfirst.
Qed.




End clustering.

(** ** StructureMapper: the reported levels *)

Section rounding.

Lemma round_half_even_bounds q :
  q - (1 # 2) <= inject_Z (round_half_even q) <= q + (1 # 2).
Proof.
  unfold round_half_even.
  pose proof (Qfloor_le q) as Hlo. pose proof (Qlt_floor q) as Hhi.
  rewrite inject_Z_plus in Hhi. change (inject_Z 1) with 1 in Hhi.
  set (f := Qfloor q) in *.
  destruct (Qlt_bool (q - inject_Z f) (1 # 2)) eqn:E1.
  { apply Qlt_bool_iff in E1. lra. }
  apply Qlt_bool_false in E1.
  destruct (Qlt_bool (1 # 2) (q - inject_Z f)) eqn:E2.
  { apply Qlt_bool_iff in E2. rewrite inject_Z_plus. change (inject_Z 1) with 1. lra. }
  apply Qlt_bool_false in E2.
  destruct (Z.even f); [lra|].
  rewrite inject_Z_plus. change (inject_Z 1) with 1. lra.
Qed.

(** Two prices more than a cent apart stay strictly ordered when rounded to
    cents. *)
Lemma py_round_2_gap a b : a + (1 # 100) < b → py_round a 2 < py_round b 2.
Proof.
  intros Hab. unfold py_round.
  change (inject_Z (10 ^ Z.of_nat 2)) with 100.
  pose proof (round_half_even_bounds (a * 100)) as [_ Ha].
  pose proof (round_half_even_bounds (b * 100)) as [Hb _].
  unfold Qdiv. apply Qmult_lt_compat_r; [reflexivity|]. lra.
Qed.

End rounding.

Section sorted_lists.
Context {A : Type} (R : relation A).

Lemma StronglySorted_filter (P : A → Prop) `{!∀ x, Decision (P x)} l :
  StronglySorted R l → StronglySorted R (filter P l).
Proof.
  induction 1 as [|x l Hl IH Hx]; [constructor|].
  rewrite filter_cons. destruct (decide (P x)); [|done].
  constructor; [done|]. rewrite Forall_forall in Hx |- *.
  intros y Hy. apply list_elem_of_filter in Hy as [_ Hy]. by apply Hx.
Qed.

Lemma StronglySorted_take n l : StronglySorted R l → StronglySorted R (take n l).
Proof.
  intros Hl. rewrite <- (take_drop n l) in Hl. by apply StronglySorted_app_1_l in Hl.
Qed.

Lemma StronglySorted_rev l : StronglySorted R l → StronglySorted (flip R) (rev l).
Proof.
  induction 1 as [|x l Hl IH Hx]; [constructor|].
  cbn [rev]. apply StronglySorted_app_2; [|done|repeat constructor].
  intros y z Hy Hz. apply list_elem_of_singleton in Hz as ->.
  rewrite Forall_forall in Hx. apply Hx.
  by apply list_elem_of_In, in_rev, list_elem_of_In in Hy.
Qed.


End sorted_lists.

Section reported_levels.
Import StructureMapper.

Lemma insert_sorted_middle y pre acc :
  (∀ p, p ∈ pre → p < y) → (∀ z, z ∈ acc → y <= z) →
  insert_sorted y (pre ++ acc) = pre ++ y :: acc.
Proof.
  intros Hpre Hacc. induction pre as [|p pre IH]; cbn [app insert_sorted].
  - destruct acc as [|z acc]; [done|]. cbn [insert_sorted].
    assert (Qle_bool y z = true) as -> by (apply Qle_bool_iff, Hacc; left). done.
  - assert (Qle_bool y p = false) as -> by (apply Qle_bool_false, Hpre; left).
    rewrite IH; [done|]. intros q Hq. apply Hpre. by right.
Qed.

Lemma foldr_insert_sorted_rev pre l acc :
  StronglySorted Qlt (pre ++ l ++ acc) →
  foldr insert_sorted (pre ++ acc) (rev l) = pre ++ l ++ acc.
Proof.
  revert pre. induction l as [|y l IH]; intros pre Hs; [done|].
  cbn [rev]. rewrite foldr_app. cbn [foldr].
  rewrite insert_sorted_middle.
  - replace (pre ++ y :: acc) with ((pre ++ [y]) ++ acc) by by rewrite <- app_assoc.
    rewrite IH; rewrite <- app_assoc; done.
  - intros p Hp. apply (StronglySorted_app_1_elem_of _ _ _ _ _ Hs); [done|]. set_solver.
  - intros z Hz. apply StronglySorted_app_1_r in Hs.
    apply StronglySorted_cons in Hs as [Hy _]. rewrite Forall_forall in Hy.
    apply Qlt_le_weak, Hy. set_solver.
Qed.

(** Sorting the reverse of a strictly ascending list gives the list back. *)
Lemma sorted_rev_strict l : StronglySorted Qlt l → sorted (rev l) = l.
Proof.
  intros Hs. pose proof (foldr_insert_sorted_rev [] l []) as H.
  cbn [app] in H. rewrite app_nil_r in H. by apply H.
Qed.

Lemma gap_Qlt d l : 0 <= d → StronglySorted (gap d) l → StronglySorted Qlt l.
Proof.
  intros Hd. induction 1 as [|x l Hl IH Hx]; constructor; [done|].
  eapply Forall_impl; [exact Hx|]. intros y [_ Hy]. cbn in Hy. lra.
Qed.

Lemma detailed_levels_prices self candles current_price above :
  ¬ pip_size self == 0 →
  ∃ levels,
    detailed_levels self candles current_price above = Ok levels
    ∧ lv_price <$> levels
      = (λ p, py_round p 2) <$> side_levels self candles current_price above.
Proof.
  intros Hpip. unfold detailed_levels. cbv zeta.
  erewrite mapM_Ok; cycle 1.
  { intros p. rewrite py_div_nonzero by done. reflexivity. }
  eexists. split; [reflexivity|].
  rewrite <- list_fmap_compose. unfold side_levels. destruct above; reflexivity.
Qed.

Lemma side_levels_above self candles current_price :
  StronglySorted (gap (min_distance_pips self * pip_size self))
    (side_levels self candles current_price true).
Proof.
  unfold side_levels. apply StronglySorted_take.
  pose proof (cluster_levels_gapped
    ((price <$> find_swing_highs candles 3 3) ++ (price <$> find_swing_lows candles 3 3))
    (min_distance_pips self * pip_size self)) as Hg.
  fold (clustered_levels self candles) in Hg.
  apply (StronglySorted_filter _ (λ l, Qlt_bool current_price l = true)) in Hg.
  rewrite sorted_id; [done|]. by eapply gap_Qle.
Qed.

Lemma side_levels_below self candles current_price :
  0 <= min_distance_pips self * pip_size self →
  StronglySorted (flip (gap (min_distance_pips self * pip_size self)))
    (side_levels self candles current_price false).
Proof.
  intros Hd. unfold side_levels, sorted_reverse. apply StronglySorted_take.
  pose proof (cluster_levels_gapped
    ((price <$> find_swing_highs candles 3 3) ++ (price <$> find_swing_lows candles 3 3))
    (min_distance_pips self * pip_size self)) as Hg.
  fold (clustered_levels self candles) in Hg.
  apply (StronglySorted_filter _ (λ l, Qlt_bool l current_price = true)) in Hg.
  rewrite sorted_rev_strict by by eapply gap_Qlt.
  by apply StronglySorted_rev.
Qed.


Lemma map_structure_levels self candles analysis_time :
  ¬ pip_size self == 0 → 1 # 100 <= min_distance_pips self * pip_size self →
  ∃ report above below,
    map_structure self candles analysis_time = Ok report
    ∧ getpath report ["output"; "levels_above"] = Ok (VList (level_to_value <$> above))
    ∧ getpath report ["output"; "levels_below"] = Ok (VList (level_to_value <$> below))
    ∧ StronglySorted Qlt (lv_price <$> above)
    ∧ StronglySorted (flip Qlt) (lv_price <$> below).
Proof.
  intros Hpip Hd. unfold map_structure.
  destruct (length candles <? 10)%nat eqn:Hlen.
  { eexists _, [], []. split; [reflexivity|]. repeat split; constructor. }
  apply Nat.ltb_ge in Hlen.
  unfold py_last. destruct (last candles) as [last_candle|] eqn:Hlast; cycle 1.
  { apply last_None in Hlast as ->. cbn in Hlen. lia. }
  cbn [mbind result_bind]. cbv zeta.
  destruct (detailed_levels_prices self candles (close last_candle) true Hpip)
    as (above & -> & Habove).
  destruct (detailed_levels_prices self candles (close last_candle) false Hpip)
    as (below & -> & Hbelow).
  cbn [mbind result_bind].
  eexists _, above, below. split; [reflexivity|].
  split; [reflexivity|]. split; [reflexivity|].
  rewrite Habove, Hbelow. split.
  - eapply StronglySorted_fmap; [|apply side_levels_above].
    intros a b [_ Hab]. apply py_round_2_gap. lra.
  - eapply StronglySorted_fmap; [|apply side_levels_below; lra].
    intros a b [_ Hab]. apply py_round_2_gap. lra.
Qed.



End reported_levels.

(** ** RegimeClassifier: bounds of ADX, DI and DX *)

Section adx.
Import RegimeClassifier.











Lemma wilder_step smoothed period new :
  (0 < period)%nat →
  wilder smoothed period new = Ok (smoothed - smoothed / Qofnat period + new).
Proof.
  intros Hp. unfold wilder. by rewrite py_div_nonzero by by apply Qofnat_nonzero.
Qed.











End adx.

(** ** The whole run: readers, then synthesis *)

Section run.
Import RunAllAgents.

Lemma py_last_returns {A} (l : list A) : l ≠ [] → returns (py_last l).
Proof.
  intros Hne. unfold py_last. destruct (last l) eqn:E; [by eexists|].
  by apply last_None in E.
Qed.

Lemma py_first_returns {A} (l : list A) : l ≠ [] → returns (py_first l).
Proof. intros Hne. destruct l; [done|by eexists]. Qed.

Lemma py_suffix_nonempty {A} (l : list A) n : l ≠ [] → py_suffix l n ≠ [].
Proof.
  intros Hne. destruct n; [done|]. cbn [py_suffix].
  intros Hnil. apply (f_equal length) in Hnil. rewrite length_drop in Hnil.
  destruct l; [done|]. cbn in Hnil. lia.
Qed.

Lemma calculate_rate_of_change_returns prices period :
  returns (MomentumReader.calculate_rate_of_change prices period).
Proof.
  unfold MomentumReader.calculate_rate_of_change.
  destruct (length prices <=? period)%nat eqn:E; [by eexists|].
  apply Nat.leb_gt in E.
  assert (prices ≠ []) as Hne by (intros ->; cbn in E; lia).
  destruct (py_last_returns prices Hne) as [c ->].
  destruct (py_first_returns _ (py_suffix_nonempty prices (period + 1) Hne)) as [p ->].
  cbn [mbind result_bind]. destruct (Qeq_bool p 0); by eexists.
Qed.

Lemma calculate_velocity_returns prices period :
  (0 < period)%nat → returns (MomentumReader.calculate_velocity prices period).
Proof.
  intros Hp. unfold MomentumReader.calculate_velocity.
  destruct (length prices <? period)%nat eqn:E; [by eexists|].
  apply Nat.ltb_ge in E.
  assert (prices ≠ []) as Hne by (intros ->; cbn in E; lia).
  destruct (py_last_returns _ (py_suffix_nonempty prices period Hne)) as [c ->].
  destruct (py_first_returns _ (py_suffix_nonempty prices period Hne)) as [p ->].
  cbn [mbind result_bind]. rewrite py_div_nonzero by by apply Qofnat_nonzero.
  by eexists.
Qed.

Lemma calculate_acceleration_returns prices fast_period slow_period :
  (0 < fast_period)%nat → (0 < slow_period)%nat →
  returns (MomentumReader.calculate_acceleration prices fast_period slow_period).
Proof.
  intros Hf Hs. unfold MomentumReader.calculate_acceleration.
  destruct (calculate_velocity_returns prices fast_period Hf) as [v ->].
  destruct (calculate_velocity_returns prices slow_period Hs) as [w ->].
  by eexists.
Qed.

Lemma state_of_returns closes :
  returns (MomentumReader.state_of MomentumReader.__init__ closes).
Proof.
  unfold MomentumReader.state_of.
  destruct (calculate_rate_of_change_returns closes
              (MomentumReader.fast_period MomentumReader.__init__)) as [fr ->].
  destruct (calculate_rate_of_change_returns closes
              (MomentumReader.slow_period MomentumReader.__init__)) as [sr ->].
  destruct (calculate_acceleration_returns closes
              (MomentumReader.fast_period MomentumReader.__init__)
              (MomentumReader.slow_period MomentumReader.__init__)) as [a ->];
    [vm_compute; lia..|].
  destruct (calculate_velocity_returns closes
              (MomentumReader.fast_period MomentumReader.__init__)) as [v ->];
    [vm_compute; lia|].
  by eexists.
Qed.

Lemma duration_loop_returns closes current_state steps duration :
  returns (MomentumReader.duration_loop MomentumReader.__init__ closes current_state
             steps duration).
Proof.
  revert duration. induction steps as [|i steps IH]; intros duration; [by eexists|].
  cbn [MomentumReader.duration_loop]. cbv zeta.
  destruct (_ <? _)%nat; [by eexists|].
  destruct (state_of_returns (py_drop_last closes i)) as [st ->].
  cbn [mbind result_bind]. destruct (String.eqb st current_state); [apply IH|by eexists].
Qed.

(** MomentumReader always returns a report, with a state in its output. *)
Lemma read_momentum_returns candles analysis_time :
  ∃ report state,
    MomentumReader.read_momentum MomentumReader.__init__ candles analysis_time = Ok report
    ∧ getpath report ["output"; "state"] = Ok (VStr state).
Proof.
  unfold MomentumReader.read_momentum.
  destruct (_ <? _)%nat; [by eexists _, _|]. cbv zeta.
  set (closes := close <$> candles).
  destruct (calculate_rate_of_change_returns closes
              (MomentumReader.fast_period MomentumReader.__init__)) as [fr ->].
  destruct (calculate_rate_of_change_returns closes
              (MomentumReader.slow_period MomentumReader.__init__)) as [sr ->].
  destruct (calculate_velocity_returns closes
              (MomentumReader.fast_period MomentumReader.__init__)) as [fv ->];
    [vm_compute; lia|].
  destruct (calculate_velocity_returns closes
              (MomentumReader.slow_period MomentumReader.__init__)) as [sv ->];
    [vm_compute; lia|].
  destruct (calculate_acceleration_returns closes
              (MomentumReader.fast_period MomentumReader.__init__)
              (MomentumReader.slow_period MomentumReader.__init__)) as [a ->];
    [vm_compute; lia..|].
  cbn [mbind result_bind].
  rewrite py_div_nonzero by (apply Qofnat_nonzero; vm_compute; lia).
  cbn [mbind result_bind].
  assert (returns (MomentumReader._get_prior_state MomentumReader.__init__ closes))
    as [prior ->].
  { unfold MomentumReader._get_prior_state.
    destruct (_ <? _)%nat; [by eexists|]. apply state_of_returns. }
  cbn [mbind result_bind].
  match goal with
  | |- context [MomentumReader._estimate_state_duration ?s ?c ?st] =>
      assert (returns (MomentumReader._estimate_state_duration s c st)) as [dur ->]
  end.
  { unfold MomentumReader._estimate_state_duration.
    destruct (_ <? _)%nat; [by eexists|].
    match goal with
    | |- context [MomentumReader.duration_loop ?s ?c ?st ?steps ?d] =>
        destruct (duration_loop_returns c st steps d) as [n ->]
    end.
    by eexists. }
  cbn [mbind result_bind]. by eexists _, _.
Qed.

Lemma dx_loop_returns period rows s_tr s_plus s_minus dx_list :
  (0 < period)%nat →
  returns (RegimeClassifier.dx_loop period rows s_tr s_plus s_minus dx_list).
Proof.
  intros Hp. revert s_tr s_plus s_minus dx_list.
  induction rows as [|[[tr pdm] mdm] rows IH]; intros; [by eexists|].
  cbn [RegimeClassifier.dx_loop]. rewrite !wilder_step by done.
  cbn [mbind result_bind]. destruct (Qlt_bool 0 _); apply IH.
Qed.

Lemma calculate_adx_returns candles period :
  (0 < period)%nat → returns (RegimeClassifier.calculate_adx candles period).
Proof.
  intros Hp. unfold RegimeClassifier.calculate_adx.
  destruct (_ <? _)%nat; [by eexists|].
  destruct (_ <? _)%nat; [by eexists|].
  destruct (dx_loop_returns period
    (zip (zip (drop period ((λ pc, true_range pc.1 pc.2) <$> consecutive candles))
            (drop period ((λ pc, RegimeClassifier.plus_dm pc.1 pc.2) <$> consecutive candles)))
       (drop period ((λ pc, RegimeClassifier.minus_dm pc.1 pc.2) <$> consecutive candles)))
    (py_sum (take period ((λ pc, true_range pc.1 pc.2) <$> consecutive candles)))
    (py_sum (take period ((λ pc, RegimeClassifier.plus_dm pc.1 pc.2) <$> consecutive candles)))
    (py_sum (take period ((λ pc, RegimeClassifier.minus_dm pc.1 pc.2) <$> consecutive candles)))
    [] Hp) as [dx_list Hdx].
  unfold RegimeClassifier.dx_triples. cbv zeta. rewrite Hdx.
  cbn [mbind result_bind].
  destruct (length dx_list <? period)%nat eqn:Hlen.
  { destruct (last dx_list); by eexists. }
  apply Nat.ltb_ge in Hlen.
  rewrite py_div_nonzero by by apply Qofnat_nonzero.
  cbn [mbind result_bind].
  destruct (py_last_returns dx_list) as [d ->]; [|by eexists].
  intros ->. cbn in Hlen. lia.
Qed.

(** RegimeClassifier always returns a report, with a regime in its
    output. *)
Lemma classify_returns candles :
  ∃ report regime,
    RegimeClassifier.classify RegimeClassifier.__init__ candles = Ok report
    ∧ getpath report ["output"; "regime"] = Ok (VStr regime).
Proof.
  unfold RegimeClassifier.classify.
  destruct (_ || _); [by eexists _, _|].
  destruct (calculate_adx_returns candles
              (RegimeClassifier.lookback RegimeClassifier.__init__))
    as [[[adx plus_di] minus_di] ->]; [vm_compute; lia|].
  cbn [mbind result_bind]. by eexists _, _.
Qed.

Lemma risk_calculate_returns self stop_distance_pips analysis_time :
  ¬ RiskCalculator.equity self == 0 →
  returns (RiskCalculator.calculate self stop_distance_pips analysis_time).
Proof.
  intros He. unfold RiskCalculator.calculate.
  destruct (position_size_table_returns self stop_distance_pips He) as [table ->].
  by eexists.
Qed.

(** The readers all return, and the gathered reports hold a regime and a
    momentum state but no volatility ["state"]. *)
Lemma gather_reports_returns candles current_spread now hour minute recency :
  ∃ reports regime momentum volatility_output,
    gather_reports candles current_spread now hour minute recency = Ok reports
    ∧ getpath reports ["regime"; "output"; "regime"] = Ok (VStr regime)
    ∧ getpath reports ["momentum"; "output"; "state"] = Ok (VStr momentum)
    ∧ getpath reports ["volatility"; "output"] = Ok (VDict volatility_output)
    ∧ volatility_output !! "state" = None.
Proof.
  unfold gather_reports.
  destruct (classify_returns candles) as (regime_report & regime & -> & Hregime).
  destruct (map_structure_levels StructureMapper.__init__ candles now)
    as (structure & _ & _ & -> & _); [by unfold Qeq|by unfold Qle|].
  destruct (read_momentum_returns candles now) as (momentum_report & state & -> & Hstate).
  destruct (assess_output_keys candles current_spread)
    as (status & out & -> & Hnostate & _).
  destruct (risk_calculate_returns (RiskCalculator.__init__ (Some 10000) (-50) 0)
              (Some 50) now) as [risk ->]; [by unfold Qeq|].
  cbn [mbind result_bind]. eexists _, regime, state, out.
  split; [reflexivity|].
  split; [exact Hregime|]. split; [exact Hstate|]. split; [reflexivity|done].
Qed.

(** C1. On every snapshot (candles, spread, clock reading) the readers all
    return their reports, and on these reports the forbidden check and the
    synthesis step both raise KeyError('state'): [run_all_agents] reaches
    neither a forbidden verdict nor a bias. *)
Theorem synthesis_raises_on_reader_reports
    (candles : list candle) (current_spread : option Q) (now : string) (hour minute : Z)
    (recency : value) :
  ∃ reports,
    gather_reports candles current_spread now hour minute recency = Ok reports
    ∧ check_synthesis_forbidden reports = Raise (KeyError "state")
    ∧ synthesis reports = Raise (KeyError "state")
    ∧ run_all_agents candles current_spread now hour minute recency
      = Raise (KeyError "state").
Proof.
  destruct (gather_reports_returns candles current_spread now hour minute recency)
    as (reports & regime & momentum & out & Hgather & Hregime & Hmomentum & Hvol & Hnostate).
  assert (getpath reports ["volatility"; "output"; "state"] = Raise (KeyError "state"))
    as Hstate.
  { cbn [getpath] in *. destruct (getitem reports "volatility") as [vol|]; [|done].
    cbn [mbind result_bind] in *.
    destruct (getitem vol "output") as [vol_out|]; [|done].
    cbn [mbind result_bind] in *. injection Hvol as ->.
    unfold getitem. by rewrite Hnostate. }
  assert (synthesis reports = Raise (KeyError "state")) as Hsyn.
  { unfold synthesis, bias_of_reports. by rewrite Hregime, Hmomentum, Hstate. }
  exists reports. split; [done|]. split; [|split; [done|]].
  - unfold check_synthesis_forbidden. by rewrite Hregime, Hstate.
  - unfold run_all_agents. rewrite Hgather. cbn [mbind result_bind]. by rewrite Hsyn.
Qed.

End run.

(** * Further properties of the code *)

(** ** SessionClock: the schedule *)

Section session_clock.
Import SessionClock.
Local Open Scope Z_scope.

(** X1. Inside a session, the session age and the time to close add up to
    the length of the session, also for a session that wraps midnight. *)
Theorem session_age_plus_time_to_close (hour minute start_hour end_hour : Z) :
  0 <= hour < 24 → 0 <= minute < 60 → 0 <= start_hour < 24 → 0 <= end_hour < 24 →
  is_within_session hour start_hour end_hour = true →
  minutes_since_session_start hour minute start_hour
    + minutes_until_session_end hour minute end_hour
  = if start_hour <? end_hour
    then (end_hour - start_hour) * 60
    else (24 - start_hour + end_hour) * 60.
Proof.
  intros Hh Hm Hs He.
  unfold is_within_session, minutes_since_session_start, minutes_until_session_end.
  cbv zeta.
  destruct (Z.ltb_spec start_hour end_hour);
    destruct (Z.leb_spec start_hour hour); destruct (Z.ltb_spec hour end_hour);
    cbn [andb orb]; try discriminate; intros _;
    destruct (Z.leb_spec (start_hour * 60) (hour * 60 + minute));
    destruct (Z.ltb_spec (hour * 60 + minute) (end_hour * 60)); lia.
Qed.

(** The theorem at 23:30 in a session from 22:00 to 07:00. *)
Lemma session_age_plus_time_to_close_witness :
  minutes_since_session_start 23 30 22 + minutes_until_session_end 23 30 7 = 540.
Proof.
  apply (session_age_plus_time_to_close 23 30 22 7); [lia..|reflexivity].
Defined.

(** X2. For a valid clock reading the time to close lies in (0, 1440] and the
    session age in [0, 1440). *)
Theorem session_minutes_bounds (hour minute session_hour : Z) :
  0 <= hour < 24 → 0 <= minute < 60 → 0 <= session_hour < 24 →
  0 < minutes_until_session_end hour minute session_hour <= 1440
  ∧ 0 <= minutes_since_session_start hour minute session_hour < 1440.
Proof.
  intros Hh Hm Hs.
  unfold minutes_since_session_start, minutes_until_session_end. cbv zeta.
  destruct (Z.leb_spec (session_hour * 60) (hour * 60 + minute));
    destruct (Z.ltb_spec (hour * 60 + minute) (session_hour * 60)); lia.
Qed.

(** The theorem at 16:00 for a session ending at 16:00: a full day left. *)
Lemma session_minutes_bounds_witness :
  0 < minutes_until_session_end 16 0 16 <= 1440
  ∧ 0 <= minutes_since_session_start 16 0 16 < 1440.
Proof. apply (session_minutes_bounds 16 0 16); lia. Defined.

Lemma check_session_active_session self analysis_time hour minute :
  getpath (check_session self analysis_time hour minute) ["output"; "active_session"]
  = Ok (VStr (_determine_active_session
                (is_within_session hour (start (sessions_ASIA self)) (end_ (sessions_ASIA self)))
                (is_within_session hour (start (sessions_LONDON self))
                   (end_ (sessions_LONDON self)))
                (is_within_session hour (start (sessions_NEW_YORK self))
                   (end_ (sessions_NEW_YORK self))))).
Proof.
  unfold check_session. cbv zeta.
  match goal with |- context [let '(_, _) := ?p in _] => destruct p end.
  reflexivity.
Qed.

(** X3. With the configured session hours the active session is a function
    of the hour alone: ASIA before 07:00, LONDON from 07:00, the overlap
    from 13:00, NEW_YORK from 16:00 and OFF_HOURS from 22:00 on. *)
Theorem check_session_schedule (analysis_time : string) (hour minute : Z) :
  0 <= hour < 24 →
  getpath (check_session __init__ analysis_time hour minute) ["output"; "active_session"]
  = Ok (VStr (if hour <? 7 then "ASIA"
              else if hour <? 13 then "LONDON"
              else if hour <? 16 then "OVERLAP_LONDON_NY"
              else if hour <? 22 then "NEW_YORK"
              else "OFF_HOURS")).
Proof.
  intros Hh. rewrite check_session_active_session. do 2 f_equal.
  change (start (sessions_ASIA __init__)) with 0.
  change (end_ (sessions_ASIA __init__)) with 9.
  change (start (sessions_LONDON __init__)) with 7.
  change (end_ (sessions_LONDON __init__)) with 16.
  change (start (sessions_NEW_YORK __init__)) with 13.
  change (end_ (sessions_NEW_YORK __init__)) with 22.
  unfold is_within_session, _determine_active_session.
  change (0 <? 9) with true. change (7 <? 16) with true. change (13 <? 22) with true.
  cbv iota.
  destruct (Z.leb_spec 0 hour); destruct (Z.ltb_spec hour 9);
    destruct (Z.leb_spec 7 hour); destruct (Z.ltb_spec hour 16);
    destruct (Z.leb_spec 13 hour); destruct (Z.ltb_spec hour 22);
    destruct (Z.ltb_spec hour 7); destruct (Z.ltb_spec hour 13);
    cbn [andb orb]; try reflexivity; lia.
Qed.

(** The theorem at 14:00: the London / New York overlap. *)
Lemma check_session_schedule_witness :
  getpath (check_session __init__ "" 14 0) ["output"; "active_session"]
  = Ok (VStr "OVERLAP_LONDON_NY").
Proof. apply (check_session_schedule "" 14 0). lia. Defined.

Lemma create_report_boundary_flag self active_session analysis_time hour minute age
    to_close boundary_flag next asia london new_york :
  getpath (_create_report self active_session analysis_time hour minute age to_close
             boundary_flag next asia london new_york) ["output"; "boundary_flag"]
  = Ok (VStr boundary_flag).
Proof. reflexivity. Qed.

Lemma is_within_session_normal hour start_hour end_hour :
  start_hour < end_hour →
  is_within_session hour start_hour end_hour
  = (start_hour <=? hour) && (hour <? end_hour).
Proof.
  intros Hlt. unfold is_within_session.
  by destruct (Z.ltb_spec start_hour end_hour); [|lia].
Qed.

Ltac session_tests :=
  repeat match goal with
  | |- context [String.eqb ?a ?b] =>
      let v := eval vm_compute in (String.eqb a b) in
      change (String.eqb a b) with v
  end.

Ltac split_comparisons :=
  repeat match goal with
  | |- context [(?a * 60 <=? ?b)] => destruct (Z.leb_spec (a * 60) b)
  | |- context [(?a <? ?b * 60)] => destruct (Z.ltb_spec a (b * 60))
  | |- context [(?a <=? ?b)] => destruct (Z.leb_spec a b)
  | |- context [(?a <? ?b)] => destruct (Z.ltb_spec a b)
  | |- context [(?a =? ?b)] => destruct (Z.eqb_spec a b)
  end.

(** X4. With the configured session hours the boundary flag is a function
    of the clock reading: the overlap from 13:00 to 16:00, an open flag in
    the first 31 minutes of the Asia and London sessions only, a close flag
    in the last 30 minutes of the New York session only. *)
Theorem check_session_boundary_flags (analysis_time : string) (hour minute : Z) :
  0 <= hour < 24 → 0 <= minute < 60 →
  getpath (check_session __init__ analysis_time hour minute) ["output"; "boundary_flag"]
  = Ok (VStr (if (13 <=? hour) && (hour <? 16) then "OVERLAP_ACTIVE"
              else if ((hour =? 0) || (hour =? 7)) && (minute <=? 30)
              then "SESSION_OPEN_30MIN"
              else if (hour =? 21) && (30 <=? minute) then "SESSION_CLOSE_30MIN"
              else "NONE")).
Proof.
  intros Hh Hm. unfold check_session. cbv zeta.
  change (start (sessions_ASIA __init__)) with 0.
  change (end_ (sessions_ASIA __init__)) with 9.
  change (start (sessions_LONDON __init__)) with 7.
  change (end_ (sessions_LONDON __init__)) with 16.
  change (start (sessions_NEW_YORK __init__)) with 13.
  change (end_ (sessions_NEW_YORK __init__)) with 22.
  rewrite !is_within_session_normal by reflexivity.
  assert (hour < 7 ∨ 7 <= hour < 9 ∨ 9 <= hour < 13 ∨ 13 <= hour < 16
          ∨ 16 <= hour < 22 ∨ 22 <= hour) as Hrange by lia.
  destruct Hrange as [H|[H|[H|[H|[H|H]]]]].
  all: destruct (Z.leb_spec 0 hour); [|lia];
       destruct (Z.ltb_spec hour 9); try lia;
       destruct (Z.leb_spec 7 hour); try lia;
       destruct (Z.ltb_spec hour 16); try lia;
       destruct (Z.leb_spec 13 hour); try lia;
       destruct (Z.ltb_spec hour 22); try lia;
       cbn [andb orb _determine_active_session]; session_tests; cbv beta iota;
       rewrite create_report_boundary_flag; do 2 f_equal;
       unfold _determine_boundary_flag, minutes_since_session_start,
         minutes_until_session_end; cbv zeta; session_tests;
       cbn [andb orb negb];
       split_comparisons; cbn [andb orb negb]; try reflexivity; lia.
Qed.

(** The theorem at 21:45, fifteen minutes before the New York close. *)
Lemma check_session_boundary_flags_witness :
  getpath (check_session __init__ "" 21 45) ["output"; "boundary_flag"]
  = Ok (VStr "SESSION_CLOSE_30MIN").
Proof. apply (check_session_boundary_flags "" 21 45); lia. Defined.

End session_clock.

(** ** The two syntheses compared *)

Section gates.
Import RunAllAgents.

Lemma py_eq_str_true v s : (v ==? s) = true → v = VStr s.
Proof.
  destruct v; cbn; try discriminate. intros H. by apply String.eqb_eq in H as ->.
Qed.

Ltac split_tests_eqn :=
  repeat (match goal with
          | |- context [py_eq_str ?v ?s] =>
              let E := fresh "E" in destruct (py_eq_str v s) eqn:E
          end; cbv beta iota zeta delta [andb orb negb snd fst]).

Ltac split_tests_subst :=
  repeat (first
    [ match goal with
      | |- context [py_eq_str (VStr ?a) ?s] =>
          let b := eval vm_compute in (String.eqb a s) in
          change (py_eq_str (VStr a) s) with b
      end
    | match goal with
      | |- context [py_eq_str ?v ?s] =>
          is_var v; let E := fresh "E" in
          destruct (py_eq_str v s) eqn:E; [apply py_eq_str_true in E; subst v|]
      end ];
    cbv beta iota zeta delta [andb orb negb snd fst]).

(** X5. The forbidden check never vetoes without a reason and never gives a
    reason without a veto. *)
Theorem check_synthesis_forbidden_reason (reports : value) (is_forbidden : bool)
    (reason : option string) :
  check_synthesis_forbidden reports = Ok (is_forbidden, reason) →
  (is_forbidden = true ↔ is_Some reason).
Proof.
  unfold check_synthesis_forbidden.
  repeat match goal with
  | |- context [getpath reports ?ks ≫= _] =>
      destruct (getpath reports ks); cbn [mbind result_bind]; [|discriminate]
  end.
  split_tests_eqn;
    repeat match goal with
    | |- context [getpath reports ?ks ≫= _] =>
        destruct (getpath reports ks); cbn [mbind result_bind]; [|discriminate]
    end;
    split_tests_eqn; intros [= <- <-]; split; (done || by eexists || by intros []).
Qed.

(** The theorem on reports with an EXTREME spread. *)
Lemma check_synthesis_forbidden_reason_witness :
  true = true ↔ is_Some (Some "SPREAD = EXTREME").
Proof.
  apply (check_synthesis_forbidden_reason
           (headline_reports "RANGE" "NEUTRAL" "NORMAL" "EXTREME" "LONDON" "NONE")).
  reflexivity.
Defined.

(** X6. [calculate_bias] is bullish only in a TREND_UP regime with
    ACCELERATING_LONG or NEUTRAL momentum, and bearish only in a TREND_DOWN
    regime with ACCELERATING_SHORT or NEUTRAL momentum. *)
Theorem calculate_bias_direction (regime momentum volatility session : value) :
  (str_contains "BULLISH" (calculate_bias regime momentum volatility session) = true →
   regime = VStr "TREND_UP"
   ∧ (momentum = VStr "ACCELERATING_LONG" ∨ momentum = VStr "NEUTRAL"))
  ∧ (str_contains "BEARISH" (calculate_bias regime momentum volatility session) = true →
     regime = VStr "TREND_DOWN"
     ∧ (momentum = VStr "ACCELERATING_SHORT" ∨ momentum = VStr "NEUTRAL")).
Proof.
  unfold calculate_bias, calculate_bias_traced.
  split; split_tests_subst; intros Hc; vm_compute in Hc; try discriminate; auto.
Qed.

(** The theorem on a weak bullish bias. *)
Lemma calculate_bias_direction_witness :
  VStr "TREND_UP" = VStr "TREND_UP"
  ∧ (VStr "NEUTRAL" = VStr "ACCELERATING_LONG" ∨ VStr "NEUTRAL" = VStr "NEUTRAL").
Proof.
  apply (proj1 (calculate_bias_direction (VStr "TREND_UP") (VStr "NEUTRAL")
                  (VStr "NORMAL") (VStr "LONDON"))).
  reflexivity.
Defined.

Lemma py_eq_str_false v s : (v ==? s) = false → v ≠ VStr s.
Proof. intros H ->. cbn in H. by rewrite String.eqb_refl in H. Qed.

(** X7. When [check_synthesis_forbidden] lets a synthesis through, the bias
    is still DO_NOT_TRADE exactly in a RANGE regime with accelerating
    momentum, or when the session field reads SESSION_CLOSE_30MIN. *)
Theorem calculate_bias_veto_beyond_forbidden
    (reports regime momentum volatility session : value) :
  getpath reports ["regime"; "output"; "regime"] = Ok regime →
  getpath reports ["momentum"; "output"; "state"] = Ok momentum →
  getpath reports ["volatility"; "output"; "state"] = Ok volatility →
  getpath reports ["session"; "output"; "active_session"] = Ok session →
  check_synthesis_forbidden reports = Ok (false, None) →
  (calculate_bias regime momentum volatility session = "DO_NOT_TRADE"
   ↔ (regime = VStr "RANGE"
      ∧ (momentum = VStr "ACCELERATING_LONG" ∨ momentum = VStr "ACCELERATING_SHORT"))
     ∨ session = VStr "SESSION_CLOSE_30MIN").
Proof.
  intros Hr Hm Hv Hs. unfold check_synthesis_forbidden.
  rewrite Hr, Hv, Hs. cbn [mbind result_bind].
  destruct (getpath reports ["volatility"; "output"; "spread_status"]) as [spread|];
    cbn [mbind result_bind]; [|discriminate].
  destruct (getpath reports ["session"; "output"; "boundary_flag"]) as [boundary|];
    cbn [mbind result_bind]; [|discriminate].
  unfold calculate_bias, calculate_bias_traced.
  revert Hm.
  split_tests_subst; try discriminate; intros ->;
    cbn [mbind result_bind]; split_tests_subst; try discriminate;
    intros _;
    repeat match goal with
    | H : (_ ==? _) = false |- _ => apply py_eq_str_false in H
    end;
    (split; [intros Hc; vm_compute in Hc; try discriminate; tauto
            |intros [[? [? | ?]] | ?]; try reflexivity; congruence]).
Qed.

(** The theorem on a RANGE regime with ACCELERATING_LONG momentum. *)
Lemma calculate_bias_veto_beyond_forbidden_witness :
  calculate_bias (VStr "RANGE") (VStr "ACCELERATING_LONG") (VStr "NORMAL") (VStr "LONDON")
  = "DO_NOT_TRADE"
  ↔ (VStr "RANGE" = VStr "RANGE"
     ∧ (VStr "ACCELERATING_LONG" = VStr "ACCELERATING_LONG"
        ∨ VStr "ACCELERATING_LONG" = VStr "ACCELERATING_SHORT"))
    ∨ VStr "LONDON" = VStr "SESSION_CLOSE_30MIN".
Proof.
  apply (calculate_bias_veto_beyond_forbidden
           (headline_reports "RANGE" "ACCELERATING_LONG" "NORMAL" "NORMAL" "LONDON" "NONE"));
    reflexivity.
Defined.

(** X8. The dashboard's [calculate_bias] stays inside the four documented
    values on every input, whatever the shape of the reports. *)
Theorem dashboard_calculate_bias_enumeration (regime momentum volatility session : value) :
  Dashboard.calculate_bias regime momentum volatility session ∈ bias_enumeration.
Proof.
  unfold Dashboard.calculate_bias, bias_enumeration. cbv zeta.
  generalize (Dashboard.safe_get regime ["output"; "regime"] (VStr "UNKNOWN")).
  generalize (Dashboard.safe_get momentum ["output"; "state"] (VStr "UNKNOWN")).
  generalize (Dashboard.safe_get volatility ["output"; "volatility_state"] (VStr "UNKNOWN")).
  generalize (Dashboard.safe_get session ["output"; "active_session"] (VStr "UNKNOWN")).
  intros s v m r. split_tests_subst; apply in_strs_elem; reflexivity.
Qed.

(** X9. The two syntheses on the same four headline values: a bullish
    (bearish) bias of run_all_agents.py is BULLISH_BIAS (BEARISH_BIAS) on the
    dashboard, and a DO_NOT_TRADE of the dashboard is one of
    run_all_agents.py. *)
Theorem dashboard_bias_covers_runner (regime momentum volatility session : value) :
  let r := Dashboard.safe_get regime ["output"; "regime"] (VStr "UNKNOWN") in
  let m := Dashboard.safe_get momentum ["output"; "state"] (VStr "UNKNOWN") in
  let v := Dashboard.safe_get volatility ["output"; "volatility_state"] (VStr "UNKNOWN") in
  let s := Dashboard.safe_get session ["output"; "active_session"] (VStr "UNKNOWN") in
  let dashboard := Dashboard.calculate_bias regime momentum volatility session in
  (str_contains "BULLISH" (calculate_bias r m v s) = true → dashboard = "BULLISH_BIAS")
  ∧ (str_contains "BEARISH" (calculate_bias r m v s) = true → dashboard = "BEARISH_BIAS")
  ∧ (dashboard = "DO_NOT_TRADE" → calculate_bias r m v s = "DO_NOT_TRADE").
Proof.
  unfold Dashboard.calculate_bias, calculate_bias, calculate_bias_traced. cbv zeta.
  generalize (Dashboard.safe_get regime ["output"; "regime"] (VStr "UNKNOWN")).
  generalize (Dashboard.safe_get momentum ["output"; "state"] (VStr "UNKNOWN")).
  generalize (Dashboard.safe_get volatility ["output"; "volatility_state"] (VStr "UNKNOWN")).
  generalize (Dashboard.safe_get session ["output"; "active_session"] (VStr "UNKNOWN")).
  intros s v m r.
  split_tests_subst;
    (split; [|split]); intros Hc; vm_compute in Hc; try discriminate; reflexivity.
Qed.

(** The theorem on the snapshot TREND_UP, NEUTRAL, NORMAL, LONDON. *)
Lemma dashboard_bias_covers_runner_witness :
  Dashboard.calculate_bias
    (mkdict [("output", mkdict [("regime", VStr "TREND_UP")])])
    (mkdict [("output", mkdict [("state", VStr "NEUTRAL")])])
    (mkdict [("output", mkdict [("volatility_state", VStr "NORMAL")])])
    (mkdict [("output", mkdict [("active_session", VStr "LONDON")])])
  = "BULLISH_BIAS".
Proof.
  apply (proj1 (dashboard_bias_covers_runner
    (mkdict [("output", mkdict [("regime", VStr "TREND_UP")])])
    (mkdict [("output", mkdict [("state", VStr "NEUTRAL")])])
    (mkdict [("output", mkdict [("volatility_state", VStr "NORMAL")])])
    (mkdict [("output", mkdict [("active_session", VStr "LONDON")])]))).
  reflexivity.
Defined.

(** X10. The dashboard's forbidden check lists a reason exactly when its
    condition holds, for each of the six reasons, and vetoes exactly when the
    list is not empty. *)
Theorem dashboard_reasons_complete (regime momentum volatility session recency : value) :
  let regime_state := Dashboard.safe_get regime ["output"; "regime"] (VStr "UNKNOWN") in
  let volatility_state :=
    Dashboard.safe_get volatility ["output"; "volatility_state"] (VStr "UNKNOWN") in
  let spread_status :=
    Dashboard.safe_get volatility ["output"; "spread_status"] (VStr "UNKNOWN") in
  let session_state :=
    Dashboard.safe_get session ["output"; "active_session"] (VStr "UNKNOWN") in
  let boundary_flag := Dashboard.safe_get session ["output"; "boundary_flag"] (VStr "NONE") in
  let '(is_forbidden, reasons) :=
    Dashboard.check_synthesis_forbidden regime momentum volatility session recency in
  (is_forbidden = true ↔ reasons ≠ [])
  ∧ ("REGIME_CHAOS" ∈ reasons ↔ regime_state = VStr "CHAOS")
  ∧ ("VOLATILITY_EXTREME" ∈ reasons ↔ volatility_state = VStr "EXTREME")
  ∧ ("SPREAD_WIDE" ∈ reasons ↔ spread_status = VStr "WIDE")
  ∧ ("SPREAD_EXTREME" ∈ reasons ↔ spread_status = VStr "EXTREME")
  ∧ ("SESSION_OFF_HOURS" ∈ reasons ↔ session_state = VStr "OFF_HOURS")
  ∧ ("SESSION_CLOSING" ∈ reasons ↔ boundary_flag = VStr "SESSION_CLOSE_30MIN").
Proof.
  unfold Dashboard.check_synthesis_forbidden. cbv zeta.
  generalize (Dashboard.safe_get regime ["output"; "regime"] (VStr "UNKNOWN")).
  generalize (Dashboard.safe_get volatility ["output"; "volatility_state"] (VStr "UNKNOWN")).
  generalize (Dashboard.safe_get volatility ["output"; "spread_status"] (VStr "UNKNOWN")).
  generalize (Dashboard.safe_get session ["output"; "active_session"] (VStr "UNKNOWN")).
  generalize (Dashboard.safe_get session ["output"; "boundary_flag"] (VStr "NONE")).
  intros b s sp v r.
  split_tests_subst;
    repeat match goal with
    | H : (_ ==? _) = false |- _ => apply py_eq_str_false in H
    end;
    repeat split; intros;
      try done; try congruence;
      try (apply in_strs_elem; reflexivity);
      try (exfalso; eapply in_strs_not_elem; [|eassumption]; reflexivity).
Qed.

(** X11. [safe_get] agrees with plain indexing whenever indexing succeeds on a
    value other than None, and returns the default whenever indexing raises,
    for a default that is not itself a dictionary. *)
Theorem safe_get_getpath (dictionary : value) (keys : list string) (default : value) :
  (∀ x, getpath dictionary keys = Ok x → x ≠ VNone →
        Dashboard.safe_get dictionary keys default = x)
  ∧ (∀ e, getpath dictionary keys = Raise e → (∀ d, default ≠ VDict d) →
          Dashboard.safe_get dictionary keys default = default).
Proof.
  unfold Dashboard.safe_get.
  assert (Hdef : ∀ ks, (∀ d, default ≠ VDict d) →
                       Dashboard.safe_get_loop default ks default = default).
  { intros [|k ks] Hd; cbn; destruct default as [| | | | |d]; try reflexivity.
    by destruct (Hd d). }
  revert dictionary. induction keys as [|key keys IH]; intros dictionary.
  - split.
    + intros x [= ->] Hx. cbn. by destruct x.
    + intros e [=].
  - split.
    + intros x Hg Hx. cbn in Hg |- *. destruct dictionary as [| | | | |d]; try discriminate.
      cbn in Hg. destruct (d !! key) as [y|]; cbn in Hg; [|discriminate].
      by apply (proj1 (IH y)).
    + intros e Hg Hd. cbn in Hg |- *. destruct dictionary as [| | | | |d]; try reflexivity.
      cbn in Hg. destruct (d !! key) as [y|]; cbn in Hg.
      * by apply (proj2 (IH y) e).
      * by apply Hdef.
Qed.

(** The theorem on a report that lacks the key looked up. *)
Lemma safe_get_getpath_witness :
  Dashboard.safe_get (mkdict [("output", mkdict [("state", VStr "LOW")])])
    ["output"; "volatility_state"] (VStr "UNKNOWN") = VStr "UNKNOWN".
Proof.
  apply (proj2 (safe_get_getpath (mkdict [("output", mkdict [("state", VStr "LOW")])])
                  ["output"; "volatility_state"] (VStr "UNKNOWN"))
           (KeyError "volatility_state")).
  - reflexivity.
  - intros d; discriminate.
Defined.

End gates.

Section rounding_more.

Lemma Qlt_bool_comp a a' b b' : a == a' → b == b' → Qlt_bool a b = Qlt_bool a' b'.
Proof.
  intros Ha Hb.
  destruct (Qlt_bool a b) eqn:E1, (Qlt_bool a' b') eqn:E2; try reflexivity.
  - apply Qlt_bool_iff in E1. apply Qlt_bool_false in E2. lra.
  - apply Qlt_bool_iff in E2. apply Qlt_bool_false in E1. lra.
Qed.

Lemma round_half_even_comp q q' : q == q' → round_half_even q = round_half_even q'.
Proof.
  intros Hq. unfold round_half_even.
  rewrite <- (Qfloor_comp _ _ Hq).
  rewrite <- (Qlt_bool_comp (q - inject_Z (Qfloor q)) (q' - inject_Z (Qfloor q))
                (1 # 2) (1 # 2)) by lra.
  rewrite <- (Qlt_bool_comp (1 # 2) (1 # 2) (q - inject_Z (Qfloor q))
                (q' - inject_Z (Qfloor q))) by lra.
  reflexivity.
Qed.


Lemma round_half_even_mono q q' : q <= q' → (round_half_even q <= round_half_even q')%Z.
Proof.
  intros Hq.
  destruct (Z_le_gt_dec (round_half_even q) (round_half_even q')) as [|Hgt]; [done|].
  exfalso.
  pose proof (round_half_even_bounds q) as [_ Ha].
  pose proof (round_half_even_bounds q') as [Hb _].
  assert (round_half_even q' + 1 <= round_half_even q)%Z as Hz by lia.
  rewrite Zle_Qle, inject_Z_plus in Hz. change (inject_Z 1) with 1 in Hz.
  assert (q == q') as Heq by lra.
  rewrite (round_half_even_comp q q' Heq) in Hgt. lia.
Qed.

Lemma pow10_pos n : 0 < inject_Z (10 ^ Z.of_nat n).
Proof.
  change 0 with (inject_Z 0). rewrite <- Zlt_Qlt. apply Z.pow_pos_nonneg; lia.
Qed.

Lemma py_round_mono q q' n : q <= q' → py_round q n <= py_round q' n.
Proof.
  intros Hq. unfold py_round. pose proof (pow10_pos n) as Hpos.
  apply Qle_shift_div_l; [done|].
  unfold Qdiv. rewrite <- Qmult_assoc, (Qmult_comm (/ _)), Qmult_inv_r, Qmult_1_r by lra.
  rewrite <- Zle_Qle. apply round_half_even_mono.
  apply Qmult_le_compat_r; lra.
Qed.

Lemma py_round_0 n : py_round 0 n == 0.
Proof.
  unfold py_round. rewrite (round_half_even_comp (0 * _) 0) by ring.
  change (inject_Z (round_half_even 0)) with 0.
  unfold Qdiv. ring.
Qed.

Lemma py_round_nonneg q n : 0 <= q → 0 <= py_round q n.
Proof. intros Hq. rewrite <- (py_round_0 n). by apply py_round_mono. Qed.

Lemma py_round_nonpos q n : q <= 0 → py_round q n <= 0.
Proof. intros Hq. rewrite <- (py_round_0 n). by apply py_round_mono. Qed.

(** Rounding to [n] places moves a number by at most half a unit of the last
    place. *)
Lemma py_round_error q n :
  Qabs (py_round q n - q) <= (1 # 2) / inject_Z (10 ^ Z.of_nat n).
Proof.
  unfold py_round. pose proof (pow10_pos n) as Hpos.
  set (s := inject_Z (10 ^ Z.of_nat n)) in *.
  pose proof (round_half_even_bounds (q * s)) as [Hlo Hhi].
  set (r := inject_Z (round_half_even (q * s))) in *.
  assert (r / s - q == (r - q * s) / s) as -> by (field; lra).
  apply Qabs_Qle_condition. split.
  - apply Qle_shift_div_l; [done|].
    assert (- ((1 # 2) / s) * s == - (1 # 2)) as -> by (field; lra). lra.
  - apply Qle_shift_div_r; [done|].
    assert ((1 # 2) / s * s == 1 # 2) as -> by (field; lra). lra.
Qed.

End rounding_more.

Section volatility_more.
Import VolatilityAssessor.

Lemma consecutive_length {A} (l : list A) : length (consecutive l) = (length l - 1)%nat.
Proof.
  unfold consecutive. rewrite length_zip. destruct l; cbn [tail length]; lia.
Qed.




(** X13. With two to fourteen candles [assess] answers with status OK, a zero
    ATR, a ratio of 1 and the LOW tier, whatever the prices are. *)
Theorem assess_short_series (candles : list candle) (spread : option Q) :
  (2 <= length candles <= 14)%nat →
  ∃ rep atr_current_pips,
    assess __init__ candles spread = Ok rep
    ∧ getpath rep ["status"] = Ok (VStr "OK")
    ∧ getpath rep ["output"; "volatility_state"] = Ok (VStr "LOW")
    ∧ getpath rep ["output"; "atr_current_pips"] = Ok (VNum atr_current_pips)
    ∧ atr_current_pips == 0
    ∧ getpath rep ["output"; "atr_ratio"] = Ok (VNum 1).
Proof.
  intros [Hlo Hhi]. unfold assess.
  assert (calculate_atr candles 14 = Ok 0) as Hatr.
  { unfold calculate_atr. by destruct (Nat.ltb_spec (length candles) (14 + 1)); [|lia]. }
  assert (calculate_baseline_atr candles 14 50 = Ok 0) as Hbase.
  { unfold calculate_baseline_atr.
    by destruct (Nat.ltb_spec (length candles) 50); [|lia]. }
  rewrite bool_decide_eq_false_2 by (intros ->; simpl in Hlo; lia).
  destruct (Nat.ltb_spec (length candles) 2) as [|_]; [lia|].
  rewrite Hatr, Hbase. cbn [orb mbind result_bind].
  eexists _, _. split; [reflexivity|]. split_and!; reflexivity.
Qed.

(** The theorem on two candles far apart. *)
Lemma assess_short_series_witness :
  ∃ rep atr_current_pips,
    assess __init__ [candle_at 1; candle_at 50] None = Ok rep
    ∧ getpath rep ["status"] = Ok (VStr "OK")
    ∧ getpath rep ["output"; "volatility_state"] = Ok (VStr "LOW")
    ∧ getpath rep ["output"; "atr_current_pips"] = Ok (VNum atr_current_pips)
    ∧ atr_current_pips == 0
    ∧ getpath rep ["output"; "atr_ratio"] = Ok (VNum 1).
Proof. apply (assess_short_series [candle_at 1; candle_at 50] None). simpl. lia. Defined.

(** X14. The tier [assess] reports is never below the tier of the ATR itself:
    the comparison with the baseline only raises it. *)
Theorem assess_tier_sound (candles : list candle) (spread : option Q) :
  (2 <= length candles)%nat →
  ∃ rep atr state,
    assess __init__ candles spread = Ok rep
    ∧ calculate_atr candles 14 = Ok atr
    ∧ getpath rep ["output"; "volatility_state"] = Ok (VStr state)
    ∧ state ∈ ["LOW"; "NORMAL"; "ELEVATED"; "EXTREME"]
    ∧ (state = "LOW" → atr / pip_size __init__ < 100)
    ∧ (state = "NORMAL" → atr / pip_size __init__ < 300)
    ∧ (state = "ELEVATED" → atr / pip_size __init__ < 500).
Proof.
  intros Hlen. unfold assess.
  rewrite bool_decide_eq_false_2 by (intros ->; simpl in Hlen; lia).
  destruct (Nat.ltb_spec (length candles) 2) as [|_]; [lia|].
  destruct (calculate_atr_returns candles 14) as [atr_current ->]; [lia|].
  destruct (calculate_baseline_atr_returns candles 14 50) as [atr_baseline ->]; [lia|].
  cbn [orb mbind result_bind].
  assert (¬ pip_size __init__ == 0) as Hpip by (by unfold Qeq).
  rewrite !py_div_nonzero by done. cbn [mbind result_bind].
  change (low_threshold __init__) with 100.
  change (normal_threshold __init__) with 300.
  change (elevated_threshold __init__) with 500.
  eexists _, atr_current, _. split; [reflexivity|]. split; [reflexivity|].
  split; [reflexivity|].
  set (pips := atr_current / pip_size __init__).
  destruct (Qlt_bool pips 100) eqn:E1; [apply Qlt_bool_iff in E1|
    destruct (Qlt_bool pips 300) eqn:E2; [apply Qlt_bool_iff in E2|
      destruct (Qlt_bool pips 500) eqn:E3; [apply Qlt_bool_iff in E3|]]];
    (destruct (Qlt_bool 0 atr_baseline); [|
       split_and!; try (intros; discriminate); try (intros _; lra);
       apply in_strs_elem; reflexivity]);
    destruct (Qlt_bool 2 (atr_current / atr_baseline));
    destruct (Qlt_bool 3 (atr_current / atr_baseline));
    cbv beta iota zeta delta [andb negb];
    split_and!; try (intros; discriminate); try (intros _; lra);
    apply in_strs_elem; reflexivity.
Qed.

Lemma assess_tier_sound_witness :
  ∃ rep atr state,
    assess __init__ [candle_at 1; candle_at 50] None = Ok rep
    ∧ calculate_atr [candle_at 1; candle_at 50] 14 = Ok atr
    ∧ getpath rep ["output"; "volatility_state"] = Ok (VStr state)
    ∧ state ∈ ["LOW"; "NORMAL"; "ELEVATED"; "EXTREME"]
    ∧ (state = "LOW" → atr / pip_size __init__ < 100)
    ∧ (state = "NORMAL" → atr / pip_size __init__ < 300)
    ∧ (state = "ELEVATED" → atr / pip_size __init__ < 500).
Proof. apply (assess_tier_sound [candle_at 1; candle_at 50] None). simpl. lia. Defined.

End volatility_more.

Section regime_more.
Import RegimeClassifier.

(** X15. What a regime reported by [classify] says about the ADX reading it
    was derived from. *)
Theorem classify_regime_sound (candles : list candle) :
  (15 <= length candles)%nat →
  ∃ rep adx plus_di minus_di regime,
    classify __init__ candles = Ok rep
    ∧ calculate_adx candles 14 = Ok (adx, plus_di, minus_di)
    ∧ getpath rep ["status"] = Ok (VStr "OK")
    ∧ getpath rep ["output"; "regime"] = Ok (VStr regime)
    ∧ regime ∈ ["RANGE"; "TREND_UP"; "TREND_DOWN"; "CHAOS"]
    ∧ (regime = "TREND_UP" → 20 <= adx ∧ minus_di < plus_di)
    ∧ (regime = "TREND_DOWN" → 20 <= adx ∧ plus_di <= minus_di)
    ∧ (regime = "CHAOS" → 50 <= adx ∧ Qabs (plus_di - minus_di) < 10)
    ∧ (regime = "RANGE" → adx < 25 ∧ (20 <= adx → plus_di == minus_di)).
Proof.
  intros Hlen. unfold classify.
  rewrite bool_decide_eq_false_2 by (intros ->; simpl in Hlen; lia).
  change (lookback __init__) with 14%nat.
  destruct (Nat.ltb_spec (length candles) (14 + 1)) as [|_]; [lia|].
  destruct (calculate_adx_returns candles 14) as [[[adx plus_di] minus_di] ->]; [lia|].
  cbn [orb mbind result_bind].
  eexists _, adx, plus_di, minus_di, _. split; [reflexivity|]. split; [reflexivity|].
  split; [reflexivity|]. split; [reflexivity|].
  repeat match goal with
  | |- context [Qlt_bool ?a ?b] =>
      let E := fresh "E" in
      destruct (Qlt_bool a b) eqn:E;
      [apply Qlt_bool_iff in E|apply Qlt_bool_false in E]
  | |- context [Qle_bool ?a ?b] =>
      let E := fresh "E" in
      destruct (Qle_bool a b) eqn:E;
      [apply Qle_bool_iff in E|apply Qle_bool_false in E]
  end;
    cbv beta iota zeta delta [andb negb];
    split_and!; try (intros; discriminate); try (intros _; split; lra); try (intros _; lra);
    try (apply in_strs_elem; reflexivity).
Qed.

Lemma classify_regime_sound_witness :
  ∃ rep adx plus_di minus_di regime,
    classify __init__ rising_candles = Ok rep
    ∧ calculate_adx rising_candles 14 = Ok (adx, plus_di, minus_di)
    ∧ getpath rep ["status"] = Ok (VStr "OK")
    ∧ getpath rep ["output"; "regime"] = Ok (VStr regime)
    ∧ regime ∈ ["RANGE"; "TREND_UP"; "TREND_DOWN"; "CHAOS"]
    ∧ (regime = "TREND_UP" → 20 <= adx ∧ minus_di < plus_di)
    ∧ (regime = "TREND_DOWN" → 20 <= adx ∧ plus_di <= minus_di)
    ∧ (regime = "CHAOS" → 50 <= adx ∧ Qabs (plus_di - minus_di) < 10)
    ∧ (regime = "RANGE" → adx < 25 ∧ (20 <= adx → plus_di == minus_di)).
Proof. apply (classify_regime_sound rising_candles). vm_compute. lia. Defined.

(** X16. A period of zero makes both indicators divide by zero on every
    series that is not empty. *)
Theorem period_zero_raises (candles : list candle) :
  candles ≠ [] →
  calculate_adx candles 0 = Raise ZeroDivisionError
  ∧ VolatilityAssessor.calculate_atr candles 0 = Raise ZeroDivisionError.
Proof.
  intros Hne. destruct candles as [|c candles]; [done|]. split.
  - unfold calculate_adx. cbn [length Nat.add Nat.ltb Nat.leb].
    unfold dx_triples. rewrite !drop_0, !take_0.
    destruct (consecutive (c :: candles)) as [|pc pairs]; reflexivity.
  - unfold VolatilityAssessor.calculate_atr. cbn [length Nat.add Nat.ltb Nat.leb].
    reflexivity.
Qed.

Lemma period_zero_raises_witness :
  calculate_adx [candle_at 1] 0 = Raise ZeroDivisionError
  ∧ VolatilityAssessor.calculate_atr [candle_at 1] 0 = Raise ZeroDivisionError.
Proof. apply (period_zero_raises [candle_at 1]). discriminate. Defined.

End regime_more.

Section regression.
Import MomentumReader.









End regression.

Section momentum_more.
Import MomentumReader.

(** The report of [read_momentum] on at least 25 candles, in terms of the
    two velocities. *)
Lemma read_momentum_state candles analysis_time :
  (25 <= length candles)%nat →
  ∃ rep fast_roc slow_roc fast_velocity slow_velocity state_duration,
    calculate_velocity (close <$> candles) 5 = Ok fast_velocity
    ∧ calculate_velocity (close <$> candles) 20 = Ok slow_velocity
    ∧ read_momentum __init__ candles analysis_time = Ok rep
    ∧ getpath rep ["status"] = Ok (VStr "ANALYSIS_COMPLETE")
    ∧ getpath rep ["output"; "state"]
      = Ok (VStr (_determine_state (1 # 2) fast_roc slow_roc
                    (py_round (fast_velocity - slow_velocity) 4) fast_velocity))
    ∧ _estimate_state_duration __init__ (close <$> candles)
        (_determine_state (1 # 2) fast_roc slow_roc
           (py_round (fast_velocity - slow_velocity) 4) fast_velocity)
      = Ok state_duration
    ∧ getpath rep ["output"; "state_duration_candles"] = Ok (VNum (Qofnat state_duration)).
Proof.
  intros Hlen. unfold read_momentum, calculate_acceleration.
  change (slow_period __init__) with 20%nat.
  change (fast_period __init__) with 5%nat.
  change (acceleration_threshold __init__) with (1 # 2).
  destruct (Nat.ltb_spec (length candles) (20 + 5)) as [|_]; [lia|]. cbv zeta.
  set (closes := close <$> candles).
  destruct (calculate_rate_of_change_returns closes 5) as [fr ->].
  destruct (calculate_rate_of_change_returns closes 20) as [sr ->].
  destruct (calculate_velocity_returns closes 5) as [fv ->]; [lia|].
  destruct (calculate_velocity_returns closes 20) as [sv ->]; [lia|].
  cbn [mbind result_bind].
  rewrite py_div_nonzero by (apply Qofnat_nonzero; lia).
  cbn [mbind result_bind].
  assert (returns (_get_prior_state __init__ closes)) as [prior ->].
  { unfold _get_prior_state. destruct (_ <? _)%nat; [by eexists|]. apply state_of_returns. }
  cbn [mbind result_bind].
  match goal with
  | |- context [_estimate_state_duration ?s ?c ?st] =>
      assert (returns (_estimate_state_duration s c st)) as [dur Hdur]
  end.
  { unfold _estimate_state_duration.
    destruct (_ <? _)%nat; [by eexists|].
    match goal with
    | |- context [duration_loop ?s ?c ?st ?steps ?d] =>
        destruct (duration_loop_returns c st steps d) as [n ->]
    end.
    by eexists. }
  rewrite Hdur. cbn [mbind result_bind].
  eexists _, fr, sr, fv, sv, dur. split_and!; try reflexivity. exact Hdur.
Qed.

(** What each state of [_determine_state] says about its inputs. *)
Lemma determine_state_sound threshold fast_roc slow_roc acceleration velocity :
  let state := _determine_state threshold fast_roc slow_roc acceleration velocity in
  state ∈ ["NEUTRAL"; "ACCELERATING_LONG"; "ACCELERATING_SHORT"; "DECELERATING"]
  ∧ (state = "ACCELERATING_LONG" → 0 < velocity ∧ threshold < acceleration)
  ∧ (state = "ACCELERATING_SHORT" → velocity < 0 ∧ acceleration < - threshold)
  ∧ (state = "DECELERATING" →
       (0 < velocity ∧ acceleration < - threshold)
       ∨ (velocity < 0 ∧ threshold < acceleration)).
Proof.
  unfold _determine_state. cbv zeta.
  destruct (Qlt_bool (Qabs velocity) (5 # 100) && Qlt_bool (Qabs acceleration) threshold).
  { split_and!; try (intros; discriminate). apply in_strs_elem; reflexivity. }
  repeat match goal with
  | |- context [Qlt_bool ?a ?b] =>
      let E := fresh "E" in
      destruct (Qlt_bool a b) eqn:E;
      [apply Qlt_bool_iff in E|apply Qlt_bool_false in E]
  end;
    split_and!; try (intros; discriminate); try (apply in_strs_elem; reflexivity);
    intros _; try (split; assumption); try (left; split; assumption);
    try (right; split; assumption).
Qed.

Lemma calculate_velocity_window prices period v :
  (0 < period <= length prices)%nat →
  calculate_velocity prices period = Ok v →
  ∃ first last_,
    prices !! (length prices - period)%nat = Some first
    ∧ last prices = Some last_
    ∧ v = py_round ((last_ - first) / Qofnat period) 4.
Proof.
  intros Hp. unfold calculate_velocity.
  destruct (Nat.ltb_spec (length prices) period) as [|_]; [lia|].
  destruct period as [|period]; [lia|]. cbn [py_suffix].
  unfold py_last, py_first.
  destruct (lookup_lt_is_Some_2 prices (length prices - S period)) as [first Hfirst]; [lia|].
  rewrite (drop_S _ _ _ Hfirst).
  assert (last (first :: drop (S (length prices - S period)) prices) = last prices) as ->.
  { rewrite <- (drop_S _ _ _ Hfirst).
    rewrite !last_lookup, lookup_drop, length_drop. f_equal. lia. }
  destruct (last prices) as [last_|] eqn:Hlast; cycle 1.
  { apply last_None in Hlast. subst prices. simpl in Hp. lia. }
  cbn [mbind result_bind].
  rewrite py_div_nonzero by (apply Qofnat_nonzero; lia).
  cbn [mbind result_bind]. intros [= <-]. by exists first, last_.
Qed.

(** X18. [read_momentum] reports ACCELERATING_LONG only when the latest
    close is above the close four bars earlier, and ACCELERATING_SHORT only
    when it is below. *)
Theorem read_momentum_direction (candles : list candle) (analysis_time : string)
    (rep : value) (state : string) :
  read_momentum __init__ candles analysis_time = Ok rep →
  getpath rep ["output"; "state"] = Ok (VStr state) →
  state = "ACCELERATING_LONG" ∨ state = "ACCELERATING_SHORT" →
  ∃ earlier latest,
    (close <$> candles) !! (length candles - 5)%nat = Some earlier
    ∧ last (close <$> candles) = Some latest
    ∧ (state = "ACCELERATING_LONG" → earlier < latest)
    ∧ (state = "ACCELERATING_SHORT" → latest < earlier).
Proof.
  intros Hrep Hstate Hacc.
  destruct (Nat.lt_ge_cases (length candles) 25) as [Hshort|Hlen].
  { exfalso. unfold read_momentum in Hrep.
    change (slow_period __init__) with 20%nat in Hrep.
    destruct (Nat.ltb_spec (length candles) (20 + 5)) as [_|]; [|lia].
    injection Hrep as <-. cbn in Hstate. injection Hstate as <-.
    destruct Hacc; discriminate. }
  destruct (read_momentum_state candles analysis_time Hlen)
    as (rep' & fr & sr & fv & sv & dur & Hfv & _ & Hrep' & _ & Hstate' & _).
  rewrite Hrep in Hrep'. injection Hrep' as <-.
  rewrite Hstate in Hstate'. injection Hstate' as ->.
  destruct (calculate_velocity_window (close <$> candles) 5 fv) as
    (earlier & latest & Hearlier & Hlatest & ->); [rewrite length_fmap; lia|done|].
  rewrite length_fmap in Hearlier.
  exists earlier, latest. split; [done|]. split; [done|].
  pose proof (determine_state_sound (1 # 2) fr sr
                (py_round (py_round ((latest - earlier) / Qofnat 5) 4 - sv) 4)
                (py_round ((latest - earlier) / Qofnat 5) 4)) as (_ & Hlong & Hshort & _).
  cbv zeta in Hlong, Hshort. change (Qofnat 5) with 5 in *.
  split; intros Hs.
  - destruct (Hlong Hs) as [Hv _].
    destruct (Qlt_le_dec earlier latest) as [|Hle]; [done|]. exfalso.
    pose proof (py_round_nonpos ((latest - earlier) / 5) 4) as Hn.
    apply (Qlt_irrefl 0). eapply Qlt_le_trans; [exact Hv|]. apply Hn.
    apply Qle_shift_div_r; [reflexivity|]. lra.
  - destruct (Hshort Hs) as [Hv _].
    destruct (Qlt_le_dec latest earlier) as [|Hle]; [done|]. exfalso.
    pose proof (py_round_nonneg ((latest - earlier) / 5) 4) as Hn.
    apply (Qlt_irrefl 0). eapply Qle_lt_trans; [|exact Hv]. apply Hn.
    apply Qle_shift_div_l; [reflexivity|]. lra.
Qed.

(** The theorem on twenty flat candles followed by five rising ones. *)
Lemma read_momentum_direction_witness :
  ∃ earlier latest,
    (close <$> breakout_candles) !! (length breakout_candles - 5)%nat = Some earlier
    ∧ last (close <$> breakout_candles) = Some latest
    ∧ ("ACCELERATING_LONG" = "ACCELERATING_LONG" → earlier < latest)
    ∧ ("ACCELERATING_LONG" = "ACCELERATING_SHORT" → latest < earlier).
Proof.
  eapply (read_momentum_direction breakout_candles "" _ "ACCELERATING_LONG").
  - vm_compute. reflexivity.
  - vm_compute. reflexivity.
  - left. reflexivity.
Defined.

(** X19. A linear series never reads as accelerating, and a steady rise or
    fall of four or more per bar reads as DECELERATING: the fast window
    spans 4 of its 5 bars and the slow one 19 of its 20, so the fast
    velocity is the smaller one in size. *)
Theorem read_momentum_linear (candles : list candle) (analysis_time : string)
    (a k : Q) :
  (25 <= length candles)%nat →
  close <$> candles = linear_series a k (length candles) →
  ∃ rep state,
    read_momentum __init__ candles analysis_time = Ok rep
    ∧ getpath rep ["output"; "state"] = Ok (VStr state)
    ∧ state ∈ ["NEUTRAL"; "DECELERATING"]
    ∧ (4 <= Qabs k → state = "DECELERATING").
Proof.
  intros Hlen Hlin.
  destruct (read_momentum_state candles analysis_time Hlen)
    as (rep & fr & sr & fv & sv & dur & Hfv & Hsv & Hrep & _ & Hstate & _).
  rewrite Hlin in Hfv, Hsv.
  destruct (calculate_velocity_linear a k (length candles) 5) as (v5 & Hv5 & Ev5); [lia|].
  destruct (calculate_velocity_linear a k (length candles) 20) as (v20 & Hv20 & Ev20); [lia|].
  rewrite Hv5 in Hfv. rewrite Hv20 in Hsv.
  injection Hfv as <-. injection Hsv as <-.
  change (Qofnat 5) with 5 in Ev5. change (Qofnat 20) with 20 in Ev20.
  assert (v5 == k * (4 # 5)) as Ev5' by (rewrite Ev5; field).
  assert (v20 == k * (19 # 20)) as Ev20' by (rewrite Ev20; field).
  clear Ev5 Ev20.
  exists rep, (_determine_state (1 # 2) fr sr
                 (py_round (py_round v5 4 - py_round v20 4) 4) (py_round v5 4)).
  split; [done|]. split; [done|].
  pose proof (py_round_error v5 4) as H5. pose proof (py_round_error v20 4) as H20.
  pose proof (py_round_error (py_round v5 4 - py_round v20 4) 4) as Hacc.
  change ((1 # 2) / inject_Z (10 ^ Z.of_nat 4)) with (1 # 20000) in *.
  apply Qabs_Qle_condition in H5, H20, Hacc.
  set (fv := py_round v5 4) in *. set (sv := py_round v20 4) in *.
  set (acc := py_round (fv - sv) 4) in *.
  assert (0 <= k → fv <= sv) as Hup.
  { intros Hk. apply py_round_mono. lra. }
  assert (k <= 0 → sv <= fv) as Hdown.
  { intros Hk. apply py_round_mono. lra. }
  assert (0 <= k → acc <= 0) as Hacc_up.
  { intros Hk. apply py_round_nonpos. specialize (Hup Hk). lra. }
  assert (k <= 0 → 0 <= acc) as Hacc_down.
  { intros Hk. apply py_round_nonneg. specialize (Hdown Hk). lra. }
  assert (0 <= k → 0 <= fv) as Hfv_up.
  { intros Hk. apply py_round_nonneg. lra. }
  assert (k <= 0 → fv <= 0) as Hfv_down.
  { intros Hk. apply py_round_nonpos. lra. }
  unfold _determine_state. cbv zeta.
  destruct (Qlt_le_dec k 0) as [Hk|Hk].
  - (* falling *)
    assert (k <= 0) as Hk' by lra.
    specialize (Hacc_down Hk'). specialize (Hfv_down Hk').
    assert (Qabs k == - k) as Habs by (apply Qabs_neg; lra).
    destruct (Qlt_bool (Qabs fv) (5 # 100) && Qlt_bool (Qabs acc) (1 # 2)) eqn:E0.
    { split; [apply in_strs_elem; reflexivity|]. intros H4. exfalso.
      apply andb_prop in E0 as [E0 _]. apply Qlt_bool_iff in E0.
      rewrite Qabs_neg in E0 by done. lra. }
    destruct (Qlt_bool 0 fv) eqn:E1; [apply Qlt_bool_iff in E1; lra|].
    destruct (Qlt_bool fv 0) eqn:E2; cycle 1.
    { split; [apply in_strs_elem; reflexivity|]. intros H4. exfalso.
      apply Qlt_bool_false in E2. lra. }
    destruct (Qlt_bool acc (- (1 # 2))) eqn:E3; [apply Qlt_bool_iff in E3; lra|].
    destruct (Qlt_bool (1 # 2) acc) eqn:E4.
    { split; [apply in_strs_elem; reflexivity|done]. }
    split; [apply in_strs_elem; reflexivity|]. intros H4. exfalso.
    apply Qlt_bool_false in E4. lra.
  - (* rising *)
    specialize (Hacc_up Hk). specialize (Hfv_up Hk).
    assert (Qabs k == k) as Habs by (by apply Qabs_pos).
    destruct (Qlt_bool (Qabs fv) (5 # 100) && Qlt_bool (Qabs acc) (1 # 2)) eqn:E0.
    { split; [apply in_strs_elem; reflexivity|]. intros H4. exfalso.
      apply andb_prop in E0 as [E0 _]. apply Qlt_bool_iff in E0.
      rewrite Qabs_pos in E0 by done. lra. }
    destruct (Qlt_bool 0 fv) eqn:E1; cycle 1.
    { destruct (Qlt_bool fv 0) eqn:E2; [apply Qlt_bool_iff in E2; lra|].
      split; [apply in_strs_elem; reflexivity|]. intros H4. exfalso.
      apply Qlt_bool_false in E1. lra. }
    destruct (Qlt_bool (1 # 2) acc) eqn:E3; [apply Qlt_bool_iff in E3; lra|].
    destruct (Qlt_bool acc (- (1 # 2))) eqn:E4.
    { split; [apply in_strs_elem; reflexivity|done]. }
    split; [apply in_strs_elem; reflexivity|]. intros H4. exfalso.
    apply Qlt_bool_false in E4. lra.
Qed.

(** The theorem on thirty candles rising by one per bar. *)
Lemma read_momentum_linear_witness :
  ∃ rep state,
    read_momentum __init__ rising_candles "" = Ok rep
    ∧ getpath rep ["output"; "state"] = Ok (VStr state)
    ∧ state ∈ ["NEUTRAL"; "DECELERATING"]
    ∧ (4 <= Qabs 1 → state = "DECELERATING").
Proof.
  apply (read_momentum_linear rising_candles "" (- (1 # 4)) 1).
  - vm_compute. lia.
  - vm_compute. reflexivity.
Defined.

Lemma duration_loop_bound closes current_state steps duration r :
  duration_loop __init__ closes current_state steps duration = Ok r →
  (duration <= r <= duration + length steps)%nat.
Proof.
  revert duration. induction steps as [|i steps IH]; intros duration.
  { intros [= <-]. simpl. lia. }
  cbn [duration_loop length]. cbv zeta.
  destruct (_ <? _)%nat; [intros [= <-]; lia|].
  destruct (state_of __init__ (py_drop_last closes i)) as [st|]; [|discriminate].
  cbn [mbind result_bind].
  destruct (String.eqb st current_state); [|intros [= <-]; lia].
  intros Hr. apply IH in Hr. lia.
Qed.

(** X20. On at least 25 candles [read_momentum] completes its analysis and
    reports a state duration between 1 and 49 candles, however long the state
    has really lasted. *)
Theorem read_momentum_duration_capped (candles : list candle) (analysis_time : string) :
  (25 <= length candles)%nat →
  ∃ rep state_duration,
    read_momentum __init__ candles analysis_time = Ok rep
    ∧ getpath rep ["status"] = Ok (VStr "ANALYSIS_COMPLETE")
    ∧ getpath rep ["output"; "state_duration_candles"] = Ok (VNum (Qofnat state_duration))
    ∧ (1 <= state_duration <= 49)%nat.
Proof.
  intros Hlen.
  destruct (read_momentum_state candles analysis_time Hlen)
    as (rep & fr & sr & fv & sv & dur & _ & _ & Hrep & Hstatus & _ & Hdur & Hfield).
  exists rep, dur. split_and!; try done.
  - revert Hdur. unfold _estimate_state_duration.
    destruct (_ <? _)%nat; [intros [= <-]; lia|].
    destruct (duration_loop _ _ _ _ _) as [d|]; [|discriminate].
    intros [= <-]. lia.
  - revert Hdur. unfold _estimate_state_duration.
    destruct (_ <? _)%nat; [intros [= <-]; lia|].
    destruct (duration_loop _ _ _ _ _) as [d|] eqn:Hd; [|discriminate].
    intros [= <-]. apply duration_loop_bound in Hd. rewrite length_seq in Hd. lia.
Qed.

Lemma read_momentum_duration_capped_witness :
  ∃ rep state_duration,
    read_momentum __init__ rising_candles "" = Ok rep
    ∧ getpath rep ["status"] = Ok (VStr "ANALYSIS_COMPLETE")
    ∧ getpath rep ["output"; "state_duration_candles"] = Ok (VNum (Qofnat state_duration))
    ∧ (1 <= state_duration <= 49)%nat.
Proof. apply (read_momentum_duration_capped rising_candles ""). vm_compute. lia. Defined.

Lemma Qlt_bool_opp a b : Qlt_bool (- a) (- b) = Qlt_bool b a.
Proof.
  destruct (Qlt_bool (- a) (- b)) eqn:E1, (Qlt_bool b a) eqn:E2; try reflexivity.
  - apply Qlt_bool_iff in E1. apply Qlt_bool_false in E2. lra.
  - apply Qlt_bool_iff in E2. apply Qlt_bool_false in E1. lra.
Qed.

(** X21. [_determine_state] treats long and short alike: negating velocity
    and acceleration exchanges ACCELERATING_LONG with ACCELERATING_SHORT and
    leaves the other states as they are; the two rates of change play no
    part. *)
Theorem determine_state_mirror (threshold fast_roc slow_roc fast_roc' slow_roc' : Q)
    (acceleration velocity : Q) :
  _determine_state threshold fast_roc' slow_roc' (- acceleration) (- velocity)
  = mirror_state (_determine_state threshold fast_roc slow_roc acceleration velocity).
Proof.
  unfold _determine_state. cbv zeta.
  rewrite (Qlt_bool_comp (Qabs (- velocity)) (Qabs velocity) (5 # 100) (5 # 100))
    by (apply Qabs_opp || reflexivity).
  rewrite (Qlt_bool_comp (Qabs (- acceleration)) (Qabs acceleration) threshold threshold)
    by (apply Qabs_opp || reflexivity).
  destruct (Qlt_bool (Qabs velocity) (5 # 100) && Qlt_bool (Qabs acceleration) threshold);
    [reflexivity|].
  change (Qlt_bool 0 (- velocity)) with (Qlt_bool (- 0) (- velocity)).
  change (Qlt_bool (- velocity) 0) with (Qlt_bool (- velocity) (- 0)).
  rewrite !Qlt_bool_opp.
  rewrite <- (Qlt_bool_opp (- acceleration) threshold).
  rewrite (Qlt_bool_comp (- - acceleration) acceleration (- threshold) (- threshold))
    by (ring || reflexivity).
  destruct (Qlt_bool 0 velocity) eqn:E1, (Qlt_bool velocity 0) eqn:E2;
    [apply Qlt_bool_iff in E1; apply Qlt_bool_iff in E2; lra| | |reflexivity];
    destruct (Qlt_bool threshold acceleration), (Qlt_bool acceleration (- threshold));
    try reflexivity.
Qed.






End momentum_more.

Section swings.
Import StructureMapper.

(** X23. The swing highs are exactly the candles, at least [left_bars] from
    the start and more than [right_bars] from the end, whose high is strictly
    above the highs of the [left_bars] candles before and the [right_bars]
    candles after; the swing lows are the same with lows strictly below. *)
Theorem find_swing_points_spec (candles : list candle) (left_bars right_bars : nat)
    (sp : swing_point) :
  (sp ∈ find_swing_highs candles left_bars right_bars
   ↔ ∃ c,
       candles !! index sp = Some c
       ∧ sp = {| price := high c; index := index sp; sp_timestamp := timestamp c |}
       ∧ (left_bars <= index sp)%nat ∧ (index sp + right_bars < length candles)%nat
       ∧ (∀ j, (1 <= j <= left_bars)%nat →
               ∃ c', candles !! (index sp - j)%nat = Some c' ∧ high c' < high c)
       ∧ (∀ j, (1 <= j <= right_bars)%nat →
               ∃ c', candles !! (index sp + j)%nat = Some c' ∧ high c' < high c))
  ∧ (sp ∈ find_swing_lows candles left_bars right_bars
     ↔ ∃ c,
         candles !! index sp = Some c
         ∧ sp = {| price := low c; index := index sp; sp_timestamp := timestamp c |}
         ∧ (left_bars <= index sp)%nat ∧ (index sp + right_bars < length candles)%nat
         ∧ (∀ j, (1 <= j <= left_bars)%nat →
                 ∃ c', candles !! (index sp - j)%nat = Some c' ∧ low c < low c')
         ∧ (∀ j, (1 <= j <= right_bars)%nat →
                 ∃ c', candles !! (index sp + j)%nat = Some c' ∧ low c < low c')).
Proof.
  assert (∀ (P : candle → bool) (Q' : candle → Prop) (f : nat → nat) n,
            (∀ c', P c' = true ↔ Q' c') →
            forallb (λ j, match candles !! f j with Some c' => P c' | None => false end)
              (seq 1 n) = true
            ↔ ∀ j, (1 <= j <= n)%nat → ∃ c', candles !! f j = Some c' ∧ Q' c') as Hall.
  { intros P Q' f n HP. rewrite forallb_forall. split.
    - intros H j Hj. specialize (H j). rewrite in_seq in H.
      destruct (candles !! f j) as [c'|]; [|by discriminate H; lia].
      exists c'. split; [done|]. apply HP, H. lia.
    - intros H j Hj. apply in_seq in Hj. destruct (H j) as (c' & -> & Hc'); [lia|].
      by apply HP. }
  split.
  - unfold find_swing_highs. rewrite list_elem_of_In, in_flat_map. split.
    + intros (i & Hi & Hsp). apply in_seq in Hi.
      destruct (candles !! i) as [c|] eqn:Hc; [|by destruct Hsp].
      cbv zeta in Hsp.
      destruct (forallb _ (seq 1 left_bars)) eqn:Hl; [|by destruct Hsp].
      destruct (forallb _ (seq 1 right_bars)) eqn:Hr; [|by destruct Hsp].
      destruct Hsp as [<-|[]]. cbn [index price sp_timestamp].
      exists c. split; [done|]. split; [done|]. split; [lia|]. split; [lia|].
      split.
      * apply (Hall (λ c', Qlt_bool (high c') (high c)) (λ c', high c' < high c)
                 (λ j, (i - j)%nat)); [intros; apply Qlt_bool_iff|done].
      * apply (Hall (λ c', Qlt_bool (high c') (high c)) (λ c', high c' < high c)
                 (λ j, (i + j)%nat)); [intros; apply Qlt_bool_iff|done].
    + intros (c & Hc & Hsp & Hlo & Hhi & Hl & Hr).
      exists (index sp). split; [apply in_seq; lia|].
      rewrite Hc. cbv zeta.
      rewrite (proj2 (Hall (λ c', Qlt_bool (high c') (high c)) (λ c', high c' < high c)
                        (λ j, (index sp - j)%nat) left_bars
                        (λ c', Qlt_bool_iff (high c') (high c)))) by done.
      rewrite (proj2 (Hall (λ c', Qlt_bool (high c') (high c)) (λ c', high c' < high c)
                        (λ j, (index sp + j)%nat) right_bars
                        (λ c', Qlt_bool_iff (high c') (high c)))) by done.
      left. by rewrite Hsp.
  - unfold find_swing_lows. rewrite list_elem_of_In, in_flat_map. split.
    + intros (i & Hi & Hsp). apply in_seq in Hi.
      destruct (candles !! i) as [c|] eqn:Hc; [|by destruct Hsp].
      cbv zeta in Hsp.
      destruct (forallb _ (seq 1 left_bars)) eqn:Hl; [|by destruct Hsp].
      destruct (forallb _ (seq 1 right_bars)) eqn:Hr; [|by destruct Hsp].
      destruct Hsp as [<-|[]]. cbn [index price sp_timestamp].
      exists c. split; [done|]. split; [done|]. split; [lia|]. split; [lia|].
      split.
      * apply (Hall (λ c', Qlt_bool (low c) (low c')) (λ c', low c < low c')
                 (λ j, (i - j)%nat)); [intros; apply Qlt_bool_iff|done].
      * apply (Hall (λ c', Qlt_bool (low c) (low c')) (λ c', low c < low c')
                 (λ j, (i + j)%nat)); [intros; apply Qlt_bool_iff|done].
    + intros (c & Hc & Hsp & Hlo & Hhi & Hl & Hr).
      exists (index sp). split; [apply in_seq; lia|].
      rewrite Hc. cbv zeta.
      rewrite (proj2 (Hall (λ c', Qlt_bool (low c) (low c')) (λ c', low c < low c')
                        (λ j, (index sp - j)%nat) left_bars
                        (λ c', Qlt_bool_iff (low c) (low c')))) by done.
      rewrite (proj2 (Hall (λ c', Qlt_bool (low c) (low c')) (λ c', low c < low c')
                        (λ j, (index sp + j)%nat) right_bars
                        (λ c', Qlt_bool_iff (low c) (low c')))) by done.
      left. by rewrite Hsp.
Qed.

End swings.

Section clustering_more.
Import StructureMapper.

Lemma insert_sorted_length x l : length (insert_sorted x l) = S (length l).
Proof.
  induction l as [|y l IH]; [done|]. cbn [insert_sorted].
  destruct (Qle_bool x y); cbn [length]; [done|]. by rewrite IH.
Qed.

Lemma sorted_length l : length (sorted l) = length l.
Proof.
  induction l as [|x l IH]; [done|].
  cbn [sorted foldr length]. rewrite insert_sorted_length. f_equal. exact IH.
Qed.






End clustering_more.

Section risk_more.
Import RiskCalculator.

Lemma stop_distances_nonempty stop_distance_pips : stop_distances stop_distance_pips ≠ [].
Proof.
  unfold stop_distances. cbv zeta.
  destruct stop_distance_pips as [s|]; [|done].
  destruct (truthy (Some s) && _); [|done].
  intros Hnil. apply (f_equal length) in Hnil.
  rewrite sorted_length in Hnil. discriminate Hnil.
Qed.

Lemma py_div_zero a b : b == 0 → py_div a b = Raise ZeroDivisionError.
Proof. intros Hb. unfold py_div. by rewrite (Qeq_eq_bool _ _ Hb). Qed.

(** X26. With zero equity [calculate] does not return a report: the risk
    percentage of the first table row divides by the equity. *)
Theorem calculate_zero_equity (self : t) (stop_distance_pips : option Q)
    (analysis_time : string) :
  equity self == 0 →
  calculate self stop_distance_pips analysis_time = Raise ZeroDivisionError.
Proof.
  intros He. unfold calculate, position_size_table. cbv zeta.
  pose proof (stop_distances_nonempty stop_distance_pips) as Hne.
  destruct (stop_distances stop_distance_pips) as [|stop stops]; [done|].
  cbn [mapM]. rewrite py_div_zero by done. reflexivity.
Qed.

Lemma calculate_zero_equity_witness :
  calculate (__init__ (Some 0) 0 0%Z) (Some 50) "" = Raise ZeroDivisionError.
Proof. apply (calculate_zero_equity (__init__ (Some 0) 0 0%Z) (Some 50) ""). reflexivity. Defined.



(** X28. The position size never grows with the stop distance, never shrinks
    with the risk budget, and is not negative for a non-negative budget. *)
Theorem calculate_position_size_monotone
    (risk_amount risk_amount' stop_distance_pips stop_distance_pips' pip_value_per_lot : Q) :
  0 <= risk_amount <= risk_amount' →
  0 < stop_distance_pips <= stop_distance_pips' →
  0 < pip_value_per_lot →
  calculate_position_size risk_amount stop_distance_pips' pip_value_per_lot
  <= calculate_position_size risk_amount stop_distance_pips pip_value_per_lot
  ∧ calculate_position_size risk_amount stop_distance_pips pip_value_per_lot
    <= calculate_position_size risk_amount' stop_distance_pips pip_value_per_lot
  ∧ 0 <= calculate_position_size risk_amount stop_distance_pips' pip_value_per_lot.
Proof.
  intros [Hr Hr'] [Hs Hs'] Hp.
  rewrite !calculate_position_size_formula by lra.
  assert (0 < stop_distance_pips * pip_value_per_lot) as H1 by nra.
  assert (0 < stop_distance_pips' * pip_value_per_lot) as H2 by nra.
  split_and!.
  - apply py_round_mono.
    apply Qle_shift_div_l; [done|].
    assert (risk_amount / (stop_distance_pips' * pip_value_per_lot)
            * (stop_distance_pips * pip_value_per_lot)
            == risk_amount * (stop_distance_pips / stop_distance_pips')) as ->
      by (field; lra).
    assert (stop_distance_pips / stop_distance_pips' <= 1) as Hratio.
    { apply Qle_shift_div_r; lra. }
    nra.
  - apply py_round_mono. apply Qle_shift_div_l; [done|].
    assert (risk_amount / (stop_distance_pips * pip_value_per_lot)
            * (stop_distance_pips * pip_value_per_lot) == risk_amount) as ->
      by (field; lra).
    done.
  - apply py_round_nonneg. apply Qle_shift_div_l; [done|]. lra.
Qed.

Lemma calculate_position_size_monotone_witness :
  calculate_position_size 100 50 1 <= calculate_position_size 100 20 1
  ∧ calculate_position_size 100 20 1 <= calculate_position_size 200 20 1
  ∧ 0 <= calculate_position_size 100 50 1.
Proof.
  apply (calculate_position_size_monotone 100 200 20 50 1);
    [split; discriminate|split; [reflexivity|discriminate]|reflexivity].
Defined.

(** X29. Position sizing does not look at the day's losses or at the open
    positions: after [update_state] changes them, [calculate] gives the same
    position size table and the same specific calculation, also when the
    daily limit is breached. *)
Theorem sizing_ignores_daily_state (self : t) (daily_pnl' : option Q)
    (open_positions' : option Z) (stop_distance_pips : option Q) (analysis_time : string) :
  let self' := update_state self None daily_pnl' open_positions' in
  (rep ← calculate self' stop_distance_pips analysis_time;
   getpath rep ["output"; "position_size_table"])
  = (rep ← calculate self stop_distance_pips analysis_time;
     getpath rep ["output"; "position_size_table"])
  ∧ (rep ← calculate self' stop_distance_pips analysis_time;
     getpath rep ["output"; "specific_calculation"])
    = (rep ← calculate self stop_distance_pips analysis_time;
       getpath rep ["output"; "specific_calculation"]).
Proof.
  cbv zeta. unfold calculate. cbv zeta.
  change (position_size_table (update_state self None daily_pnl' open_positions')
            stop_distance_pips)
    with (position_size_table self stop_distance_pips).
  change (specific_calculation (update_state self None daily_pnl' open_positions')
            stop_distance_pips)
    with (specific_calculation self stop_distance_pips).
  destruct (position_size_table self stop_distance_pips) as [table|e]; [|done].
  cbn [mbind result_bind].
  destruct (specific_calculation self stop_distance_pips) as [sc|]; split; reflexivity.
Qed.

End risk_more.

Section recency.
Import RecencyCheck.

Lemma count_fold pairs up down unchanged :
  let step := λ '(up_count, down_count, unchanged_count) (pc : tick * tick),
      let current := get_mid pc.2 in
      let previous := get_mid pc.1 in
      if Qlt_bool previous current then (S up_count, down_count, unchanged_count)
      else if Qlt_bool current previous then (up_count, S down_count, unchanged_count)
      else (up_count, down_count, S unchanged_count) in
  let '(up', down', unchanged') := foldl step (up, down, unchanged) pairs in
  (up' + down' + unchanged' = up + down + unchanged + length pairs)%nat
  ∧ (up <= up')%nat ∧ (down <= down')%nat
  ∧ (down' = down → Forall (λ pc, get_mid pc.1 <= get_mid pc.2) pairs)
  ∧ (up' = up → Forall (λ pc, get_mid pc.2 <= get_mid pc.1) pairs).
Proof.
  cbv zeta. revert up down unchanged.
  induction pairs as [|pc pairs IH]; intros up down unchanged.
  { cbn. split_and!; try lia; by constructor. }
  cbn [foldl length].
  destruct (Qlt_bool (get_mid pc.1) (get_mid pc.2)) eqn:E1;
    [|destruct (Qlt_bool (get_mid pc.2) (get_mid pc.1)) eqn:E2].
  - apply Qlt_bool_iff in E1. specialize (IH (S up) down unchanged).
    destruct (foldl _ _ pairs) as [[up' down'] unchanged'].
    destruct IH as (H1 & H2 & H3 & H4 & H5).
    split_and!; try lia. intros Hd. constructor; [lra|by apply H4].
  - apply Qlt_bool_iff in E2. specialize (IH up (S down) unchanged).
    destruct (foldl _ _ pairs) as [[up' down'] unchanged'].
    destruct IH as (H1 & H2 & H3 & H4 & H5).
    split_and!; try lia. intros Hu. constructor; [lra|by apply H5].
  - apply Qlt_bool_false in E1, E2. specialize (IH up down (S unchanged)).
    destruct (foldl _ _ pairs) as [[up' down'] unchanged'].
    destruct IH as (H1 & H2 & H3 & H4 & H5).
    split_and!; try lia.
    + intros Hd. constructor; [lra|by apply H4].
    + intros Hu. constructor; [lra|by apply H5].
Qed.

Lemma chain_first_last (R : Q → Q → Prop) (ticks : list tick) first_tick last_tick :
  (∀ x, R x x) → (∀ x y z, R x y → R y z → R x z) →
  Forall (λ pc, R (get_mid pc.1) (get_mid pc.2)) (consecutive ticks) →
  py_first ticks = Ok first_tick → py_last ticks = Ok last_tick →
  R (get_mid first_tick) (get_mid last_tick).
Proof.
  intros Hrefl Htrans.
  revert first_tick. induction ticks as [|t ticks IH]; intros first_tick Hall; [done|].
  intros [= <-]. destruct ticks as [|t' ticks].
  { intros [= <-]. apply Hrefl. }
  unfold consecutive in Hall. cbn [tail zip zip_with] in Hall.
  apply Forall_cons in Hall as [Htt' Hall]. cbn [fst snd] in Htt'.
  intros Hlast. eapply Htrans; [exact Htt'|].
  apply IH; [exact Hall|done|].
  revert Hlast. unfold py_last. by rewrite last_cons_cons.
Qed.

(** X30. The tick counters add up to the number of tick-to-tick moves, and
    the net movement agrees with them: without a single down-tick it is not
    negative, without a single up-tick it is not positive. *)
Theorem tick_counts_and_net_movement (ticks : list tick) (pip_size : Q) :
  (2 <= length ticks)%nat → 0 < pip_size →
  ∃ up_count down_count unchanged_count movement,
    count_tick_directions ticks = (up_count, down_count, unchanged_count)
    ∧ calculate_net_movement ticks pip_size = Ok movement
    ∧ (up_count + down_count + unchanged_count = length ticks - 1)%nat
    ∧ (down_count = 0%nat → 0 <= movement)
    ∧ (up_count = 0%nat → movement <= 0).
Proof.
  intros Hlen Hpip. unfold count_tick_directions, calculate_net_movement.
  destruct (Nat.ltb_spec (length ticks) 2) as [|_]; [lia|].
  assert (ticks ≠ []) as Hne by (intros ->; simpl in Hlen; lia).
  destruct (py_first_returns ticks Hne) as [first_tick Hfirst].
  destruct (py_last_returns ticks Hne) as [last_tick Hlast].
  rewrite Hfirst, Hlast. cbn [mbind result_bind].
  assert (Qeq_bool pip_size 0 = false) as ->.
  { destruct (Qeq_bool pip_size 0) eqn:E; [|done]. apply Qeq_bool_eq in E. lra. }
  pose proof (count_fold (consecutive ticks) 0 0 0) as Hfold. cbv zeta in Hfold.
  destruct (foldl _ _ (consecutive ticks)) as [[up down] unchanged].
  destruct Hfold as (Hsum & _ & _ & Hdown & Hup).
  rewrite consecutive_length in Hsum.
  exists up, down, unchanged, (py_round ((get_mid last_tick - get_mid first_tick) / pip_size) 1).
  split; [done|]. split; [done|]. split; [lia|]. split.
  - intros Hd. apply py_round_nonneg.
    pose proof (chain_first_last Qle ticks first_tick last_tick Qle_refl Qle_trans
                  (Hdown Hd) Hfirst Hlast).
    apply Qle_shift_div_l; [done|]. lra.
  - intros Hu. apply py_round_nonpos.
    pose proof (chain_first_last (flip Qle) ticks first_tick last_tick Qle_refl
                  (λ x y z Hxy Hyz, Qle_trans z y x Hyz Hxy) (Hup Hu) Hfirst Hlast) as H.
    unfold flip in H.
    apply Qle_shift_div_r; [done|]. lra.
Qed.

Lemma tick_counts_and_net_movement_witness :
  ∃ up_count down_count unchanged_count movement,
    count_tick_directions sample_ticks
    = (up_count, down_count, unchanged_count)
    ∧ calculate_net_movement sample_ticks (1 # 100) = Ok movement
    ∧ (up_count + down_count + unchanged_count = length sample_ticks - 1)%nat
    ∧ (down_count = 0%nat → 0 <= movement)
    ∧ (up_count = 0%nat → movement <= 0).
Proof.
  apply (tick_counts_and_net_movement sample_ticks (1 # 100)).
  - simpl. lia.
  - reflexivity.
Defined.

End recency.
